(** * PDF quiz front end: proxies, upload form and quiz view

    A shallow embedding of the four TypeScript sources of the PDF-quiz
    feature:
    - [src/unnamed/part_000], the quiz-fetch proxy (a Next.js [GET] handler);
    - [src/unnamed/part_001], the upload proxy (a Next.js [POST] handler);
    - [sensai-frontend/src/components/PDFUpload.tsx], the upload form;
    - [sensai-frontend/src/app/pdf-quiz/page.tsx], the page and the
      [PDFQuizView] component.

    React state is a record, a handler is a function on that record, and what a
    handler sends (a [fetch], a callback to the parent) is returned beside the
    new state.  An [await] that may reject is a value of a sum type, supplied
    by the environment; [try]/[catch] is a match on it. *)

From Stdlib Require Import ZArith QArith Qabs Qround Lqa String Ascii List Bool Lia.
From Stdlib Require Import DecimalString.
From stdpp Require Import base option list gmap sorting.

Local Open Scope Z_scope.

(** ** JavaScript values the sources compute with *)

Module JS.

(** A JavaScript string is a sequence of UTF-16 code units. *)
Abbreviation jsstring := (list N).

(** A string literal of the source (ASCII text), as code units. *)
Definition js (s : string) : jsstring :=
  List.map N_of_ascii (list_ascii_of_string s).

(** ECMAScript's WhiteSpace and LineTerminator code units: TAB, LF, VT, FF,
    CR, SP, NBSP, the space separators (Zs), LS, PS and the BOM.  These are
    what [String.prototype.trim] removes. *)
Definition isWhiteSpace (c : N) : bool :=
  ((9 <=? c) && (c <=? 13) || (c =? 32) || (c =? 160) || (c =? 5760)
   || (8192 <=? c) && (c <=? 8202) || (c =? 8232) || (c =? 8233)
   || (c =? 8239) || (c =? 8287) || (c =? 12288) || (c =? 65279))%N.

Fixpoint trimStart (s : jsstring) : jsstring :=
  match s with
  | c :: s' => if isWhiteSpace c then trimStart s' else s
  | [] => []
  end.

Definition trimEnd (s : jsstring) : jsstring := rev (trimStart (rev s)).

(** [s.trim()] *)
Definition trim (s : jsstring) : jsstring := trimEnd (trimStart s).

(** ToBoolean on a string: only the empty string is falsy. *)
Definition truthy_string (s : jsstring) : bool :=
  match s with [] => false | _ :: _ => true end.

(** ToBoolean on [string | undefined] and [string | null]. *)
Definition truthy_opt_string (o : option jsstring) : bool :=
  match o with Some s => truthy_string s | None => false end.

(** ToBoolean on [boolean | undefined]. *)
Definition truthy_opt_bool (o : option bool) : bool :=
  match o with Some b => b | None => false end.

(** [a || b] on strings, with [a] possibly [null]. *)
Definition or_string (a : option jsstring) (b : jsstring) : jsstring :=
  match a with
  | Some s => if truthy_string s then s else b
  | None => b
  end.

(** Number::toString on an integer: decimal digits, [-] before a negative.
    This is what JavaScript prints for an integer below [10^21] in absolute
    value; from there on it prints an exponent, which is not modelled. *)
Definition Number_toString (n : Z) : jsstring :=
  js (NilEmpty.string_of_int (Z.to_int n)).

(** [s.split(sep)] for a separator of one code unit. *)
Fixpoint split (sep : N) (s : jsstring) : list jsstring :=
  match s with
  | [] => [[]]
  | c :: s' =>
      if (c =? sep)%N then [] :: split sep s'
      else match split sep s' with
           | piece :: pieces => (c :: piece) :: pieces
           | [] => [[c]]
           end
  end.

(** A field that the interfaces declare as [string], as JSON can deliver
    it: a string, [null], or no field at all ([undefined] when read). *)
Inductive StringField :=
| StringValue (s : jsstring)
| NullValue
| MissingValue.

(** What an [await] gives when it rejects, or a [throw] raises: an [Error]
    with its message, or some other value ([instanceof Error] is false). *)
Inductive Thrown :=
| ThrownError (message : jsstring)
| ThrownOther.

(** [error instanceof Error ? error.message : fallback] *)
Definition message_or (e : Thrown) (fallback : jsstring) : jsstring :=
  match e with ThrownError m => m | ThrownOther => fallback end.

(** A JavaScript number that is not an integer key or score is modelled by
    its exact value, a rational (every finite double is one).

    [x.toFixed(fractionDigits)], ECMAScript 21.1.3.3: for [x] below [10^21] in
    absolute value, take the integer [n] with [n / 10^f - x] closest to zero,
    the larger [n] on a tie, and print it with [f] digits after the point,
    padded with zeros on the left, and [-] before a negative [x].  From
    [10^21] on JavaScript prints the shortest digits of the double with an
    exponent, which a rational does not determine: [None]. *)
Definition place_point (f : nat) (n : Z) : jsstring :=
  let digits := Number_toString n in
  match f with
  | O => digits
  | _ =>
      let k := length digits in
      let padded :=
        if (k <=? f)%nat then repeat 48%N (f + 1 - k) ++ digits else digits in
      let k' := length padded in
      take (k' - f) padded ++ js "." ++ drop (k' - f) padded
  end.

Definition Number_toFixed (fractionDigits : nat) (x : Q) : option jsstring :=
  let ax := Qabs x in
  if Qle_bool (inject_Z (10 ^ 21)) ax then None
  else
    let n := Qfloor (ax * inject_Z (10 ^ Z.of_nat fractionDigits) + (1 # 2))%Q in
    let m := place_point fractionDigits n in
    Some (if Qle_bool 0 x then m else js "-" ++ m).

End JS.
Import JS.

(** ** [fetch] as the handlers see it *)

Module Fetch.

(** An awaited promise: fulfilled with a value, or rejected. *)
Inductive Awaited (A : Type) :=
| Fulfilled (a : A)
| Rejected (e : Thrown).
Arguments Fulfilled {A} a.
Arguments Rejected {A} e.

Inductive Method := GET_ | POST_.

(** The arguments of one [fetch] call.  [body] is the value the source
    passes through [JSON.stringify]; [None] when the call has no body. *)
Record Request (B : Type) := {
  url : jsstring;
  method : Method;
  headers : list (jsstring * jsstring);
  body : option B
}.
Arguments url {B} _.
Arguments method {B} _.
Arguments headers {B} _.
Arguments body {B} _.

(** What [fetch] resolves to: the status line, and what reading the body
    with [text()] and with [json()] gives ([json()] rejects when the body
    is not JSON, both reject when the body cannot be read). *)
Record Response (A : Type) := {
  status : Z;
  statusText : jsstring;
  text : Awaited jsstring;
  json : Awaited A
}.
Arguments status {A} _.
Arguments statusText {A} _.
Arguments text {A} _.
Arguments json {A} _.

(** [response.ok]: the status is in the range 200 to 299. *)
Definition ok {A} (r : Response A) : bool :=
  (200 <=? status r) && (status r <=? 299).

End Fetch.
Import Fetch.

(** ** The two proxies ([src/unnamed/part_000], [src/unnamed/part_001]) *)

Module Proxy.

Section Handlers.

(** The JSON values the proxies pass along; they never look inside one. *)
Variable JSON : Type.

(** [process.env.NEXT_PUBLIC_BACKEND_URL] *)
Variable NEXT_PUBLIC_BACKEND_URL : option jsstring.

(** The backend: what [fetch] settles to for a given call. *)
Variable backend : Request JSON -> Awaited (Response JSON).

(** [const BACKEND_URL = process.env.NEXT_PUBLIC_BACKEND_URL || "http://localhost:8000"] *)
Definition BACKEND_URL : jsstring :=
  or_string NEXT_PUBLIC_BACKEND_URL (js "http://localhost:8000").

(** The incoming request, as far as the handlers read it:
    [request.headers.get("Authorization")] ([None] for [null]) and what
    [request.json()] settles to. *)
Record NextRequest := {
  headers_get_Authorization : option jsstring;
  request_json : Awaited JSON
}.

(** The value given to [NextResponse.json]: the backend's data, or the
    object [{ error: ... }]. *)
Inductive Payload :=
| Data (data : JSON)
| ErrorObject (error : jsstring).

Record NextResponse := {
  payload : Payload;
  response_status : Z
}.

(** A response that carries a body may not have a null-body status. *)
Definition null_body_status (s : Z) : bool :=
  (s =? 101) || (s =? 103) || (s =? 204) || (s =? 205) || (s =? 304).

(** [NextResponse.json(payload, { status })] builds a [Response] with a JSON
    body.  The Fetch standard's constructor throws a [RangeError] for a
    status outside 200..599 and a [TypeError] for a null-body status:
    [None]. *)
Definition NextResponse_json (p : Payload) (s : Z) : option NextResponse :=
  if (200 <=? s) && (s <=? 599) && negb (null_body_status s)
  then Some {| payload := p; response_status := s |}
  else None.

(** The body of a [try] block: the backend calls made so far, and the value
    reached, or [None] once something has thrown (the [catch] blocks log
    the thrown value and do not use it otherwise). *)
Definition Try (A : Type) : Type := list (Request JSON) * option A.

Definition ret {A} (a : A) : Try A := ([], Some a).

Definition bind {A B} (m : Try A) (k : A -> Try B) : Try B :=
  match m with
  | (calls, Some a) => let '(calls', b) := k a in (calls ++ calls', b)
  | (calls, None) => (calls, None)
  end.

(** [await p] inside [try] *)
Definition await {A} (p : Awaited A) : Try A :=
  match p with
  | Fulfilled a => ([], Some a)
  | Rejected _ => ([], None)
  end.

(** A call that throws when it gives [None]. *)
Definition attempt {A} (o : option A) : Try A := ([], o).

(** [await fetch(url, init)] *)
Definition fetch (call : Request JSON) : Try (Response JSON) :=
  ([call], match backend call with
           | Fulfilled r => Some r
           | Rejected _ => None
           end).

Notation "'let*' x ':=' m 'in' k" := (bind m (fun x => k))
  (at level 10, x name, m at level 100, k at level 200).

(** The part both handlers share, after the [fetch]: lines 20-29 of the
    fetch proxy, 19-28 of the upload proxy. *)
Definition relay (response : Response JSON) : Try NextResponse :=
  if negb (ok response) then
    let* errorText := await (text response) in
    attempt (NextResponse_json
               (ErrorObject (js "Backend error: " ++ statusText response))
               (status response))
  else
    let* data := await (json response) in
    attempt (NextResponse_json (Data data) 200).

(** [try { body } catch (error) { return NextResponse.json({ error:
    "Internal server error" }, { status: 500 }) }]: the backend calls made,
    and the handler's response ([None] if the handler itself threw). *)
Definition try_catch (body : Try NextResponse)
  : list (Request JSON) * option NextResponse :=
  match body with
  | (calls, Some r) => (calls, Some r)
  | (calls, None) =>
      (calls, NextResponse_json (ErrorObject (js "Internal server error")) 500)
  end.

(** The [fetch] call of the fetch proxy (lines 13-18), with [quizId] the
    [context.params.quizId] of the route. *)
Definition quiz_call (request : NextRequest) (quizId : jsstring) : Request JSON :=
  {| url := BACKEND_URL ++ js "/pdf-quizzes/quiz/" ++ quizId;
     method := GET_;
     headers :=
       [(js "Authorization",
         or_string (headers_get_Authorization request) (js ""))];
     body := None |}.

(** [export async function GET(request, context)] *)
Definition GET (request : NextRequest) (quizId : jsstring)
  : list (Request JSON) * option NextResponse :=
  try_catch (
    let* response := fetch (quiz_call request quizId) in
    relay response).

(** The [fetch] call of the upload proxy (lines 10-17), with [body] the
    parsed body of the incoming request. *)
Definition upload_call (request : NextRequest) (body : JSON) : Request JSON :=
  {| url := BACKEND_URL ++ js "/pdf-quizzes/upload";
     method := POST_;
     headers :=
       [(js "Content-Type", js "application/json");
        (js "Authorization",
         or_string (headers_get_Authorization request) (js ""))];
     body := Some body |}.

(** [export async function POST(request)] *)
Definition POST (request : NextRequest)
  : list (Request JSON) * option NextResponse :=
  try_catch (
    let* body := await (request_json request) in
    let* response := fetch (upload_call request body) in
    relay response).

(** The two error responses: for a backend error and for an internal one. *)
Definition internal_server_error : NextResponse :=
  {| payload := ErrorObject (js "Internal server error");
     response_status := 500 |}.

Definition backend_error (r : Response JSON) : NextResponse :=
  {| payload := ErrorObject (js "Backend error: " ++ statusText r);
     response_status := status r |}.

(** A status a JSON response can be built with. *)
Definition carries_body (s : Z) : Prop :=
  200 <= s <= 599 /\ null_body_status s = false.

(** Something throws in the part after the [fetch]. *)
Inductive relay_throws (r : Response JSON) : Prop :=
| json_rejects e : ok r = true -> json r = Rejected e -> relay_throws r
| text_rejects e : ok r = false -> text r = Rejected e -> relay_throws r
| status_refused : ok r = false -> ~ carries_body (status r) -> relay_throws r.

(** Something throws inside the [try] block of the fetch proxy. *)
Inductive GET_throws (request : NextRequest) (quizId : jsstring) : Prop :=
| GET_fetch_rejects e :
    backend (quiz_call request quizId) = Rejected e -> GET_throws request quizId
| GET_relay_throws r :
    backend (quiz_call request quizId) = Fulfilled r -> relay_throws r ->
    GET_throws request quizId.

(** Something throws inside the [try] block of the upload proxy. *)
Inductive POST_throws (request : NextRequest) : Prop :=
| POST_request_json_rejects e :
    request_json request = Rejected e -> POST_throws request
| POST_fetch_rejects body e :
    request_json request = Fulfilled body ->
    backend (upload_call request body) = Rejected e -> POST_throws request
| POST_relay_throws body r :
    request_json request = Fulfilled body ->
    backend (upload_call request body) = Fulfilled r -> relay_throws r ->
    POST_throws request.

End Handlers.

Arguments headers_get_Authorization {JSON} _.
Arguments request_json {JSON} _.
Arguments Data {JSON} data.
Arguments ErrorObject {JSON} error.
Arguments payload {JSON} _.
Arguments response_status {JSON} _.
Arguments internal_server_error {JSON}.
Arguments backend_error {JSON} r.
Arguments relay_throws {JSON} r.
Arguments json_rejects {JSON} r e _ _.
Arguments text_rejects {JSON} r e _ _.
Arguments status_refused {JSON} r _ _.
Arguments GET_throws {JSON} _ _ request quizId.
Arguments GET_fetch_rejects {JSON} _ _ request quizId e _.
Arguments GET_relay_throws {JSON} _ _ request quizId r _ _.
Arguments POST_throws {JSON} _ _ request.
Arguments POST_request_json_rejects {JSON} _ _ request e _.
Arguments POST_fetch_rejects {JSON} _ _ request body e _ _.
Arguments POST_relay_throws {JSON} _ _ request body r _ _ _.

End Proxy.

(** ** JSON text and JSON values: integers

    The proxies never pass text along: [request.json()] and
    [response.json()] parse it into a value, and [JSON.stringify] and
    [NextResponse.json] write the value out again.  For a body that is one
    integer literal the two steps are modelled here, to compare the text
    that arrives with the text that leaves. *)

Module JSONText.

(** The value of a JSON integer literal (an optional minus sign, then
    either the digit 0 alone or digits that do not start with 0); [None]
    for any other text. *)
Fixpoint digits_value (acc : Z) (s : jsstring) : option Z :=
  match s with
  | [] => Some acc
  | c :: s' =>
      if ((48 <=? c) && (c <=? 57))%N
      then digits_value (10 * acc + Z.of_N (c - 48)) s'
      else None
  end.

Definition natural_literal (s : jsstring) : option Z :=
  match s with
  | [] => None
  | [c] => digits_value 0 [c]
  | c :: _ => if (c =? 48)%N then None else digits_value 0 s
  end.

Definition integer_literal (s : jsstring) : option Z :=
  match s with
  | 45%N :: s' => Z.opp <$> natural_literal s'
  | _ => natural_literal s
  end.

(** The Number nearest to an integer, ties to the even significand (53
    bits); [None] when it is beyond the largest Number. *)
Definition nearest_Number (n : Z) : option Z :=
  let a := Z.abs n in
  if a <? 2 ^ 53 then Some n
  else
    let e := Z.log2 a - 52 in
    let m := a / 2 ^ e in
    let r := a mod 2 ^ e in
    let half := 2 ^ (e - 1) in
    let m' := if (half <? r) || ((r =? half) && Z.odd m) then m + 1 else m in
    let v := m' * 2 ^ e in
    if 2 ^ 1024 <=? v then None else Some (Z.sgn n * v).

(** [JSON.parse] on an integer literal of at most 20 digits (from the 21st
    digit on an engine may round the literal first): the Number nearest
    to its value.  [None] for every other text: not modelled. *)
Definition JSON_parse_integer (text : jsstring) : option Z :=
  if (length text <=? 20)%nat
  then n ← integer_literal text; nearest_Number n
  else None.

(** [JSON.stringify] on a Number that is an integer below [10^21] in
    absolute value: its digits.  [None] from [10^21] on: not modelled. *)
Definition JSON_stringify_integer (x : Z) : option jsstring :=
  if Z.abs x <? 10 ^ 21 then Some (Number_toString x) else None.

End JSONText.

(** ** The upload form ([components/PDFUpload.tsx]) *)

Module PDFUpload.

(** A browser [File]: its name, its MIME type and its bytes. *)
Record File := {
  name : jsstring;
  type : jsstring;
  content : list Byte.byte
}.

Inductive StatusType := success | error.

Record UploadStatus := {
  status_type : option StatusType;
  status_message : jsstring
}.

(** The component's four [useState] cells. *)
Record State := {
  file : option File;
  title : jsstring;
  isUploading : bool;
  uploadStatus : UploadStatus
}.

Definition initial : State :=
  {| file := None; title := js ""; isUploading := false;
     uploadStatus := {| status_type := None; status_message := js "" |} |}.

Definition setFile (v : option File) (st : State) : State :=
  {| file := v; title := title st; isUploading := isUploading st;
     uploadStatus := uploadStatus st |}.

Definition setTitle (v : jsstring) (st : State) : State :=
  {| file := file st; title := v; isUploading := isUploading st;
     uploadStatus := uploadStatus st |}.

Definition setIsUploading (v : bool) (st : State) : State :=
  {| file := file st; title := title st; isUploading := v;
     uploadStatus := uploadStatus st |}.

Definition setUploadStatus (v : UploadStatus) (st : State) : State :=
  {| file := file st; title := title st; isUploading := isUploading st;
     uploadStatus := v |}.

(** Equality of code units, as [===] on strings. *)
Definition string_eqb (a b : jsstring) : bool := bool_decide (a = b).

(** ASCII letters compared without case, as the [i] flag of a regular
    expression does for them. *)
Definition eqb_ignore_case (c letter : N) : bool :=
  ((c =? letter) || (c =? letter - 32))%N.

(** [fileName.replace(/\.pdf$/i, "")]: the pattern matches only at the end
    of the string, so the replacement drops a final [.pdf] in any case. *)
Definition replace_pdf_suffix (fileName : jsstring) : jsstring :=
  let k := (length fileName - 4)%nat in
  match drop k fileName with
  | [dot; p; d; f] =>
      if ((dot =? 46)%N && eqb_ignore_case p 112 && eqb_ignore_case d 100
          && eqb_ignore_case f 102)
      then take k fileName else fileName
  | _ => fileName
  end.

(** [handleFileChange], with [selectedFile] the [event.target.files?.[0]]
    of the change event ([None] when no file was chosen). *)
Definition handleFileChange (selectedFile : option File) (st : State) : State :=
  match selectedFile with
  | Some f =>
      if string_eqb (type f) (js "application/pdf") then
        setTitle (replace_pdf_suffix (name f)) (setFile (Some f) st)
      else
        setUploadStatus
          {| status_type := Some error;
             status_message := js "Please select a valid PDF file." |} st
  | None => st
  end.

(** Base64 (RFC 4648), as [FileReader.readAsDataURL] encodes the bytes. *)
Definition base64_alphabet : jsstring :=
  js "ABCDEFGHIJKLMNOPQRSTUVWXYZabcdefghijklmnopqrstuvwxyz0123456789+/".

Definition base64_digit (i : N) : N := nth (N.to_nat i) base64_alphabet 65%N.

Fixpoint base64_encode (bytes : list Byte.byte) : jsstring :=
  match bytes with
  | [] => []
  | [a] =>
      let n := (Byte.to_N a * 65536)%N in
      [base64_digit (n / 262144); base64_digit ((n / 4096) mod 64); 61; 61]%N
  | [a; b] =>
      let n := (Byte.to_N a * 65536 + Byte.to_N b * 256)%N in
      [base64_digit (n / 262144); base64_digit ((n / 4096) mod 64);
       base64_digit ((n / 64) mod 64); 61]%N
  | a :: b :: c :: rest =>
      let n := (Byte.to_N a * 65536 + Byte.to_N b * 256 + Byte.to_N c)%N in
      [base64_digit (n / 262144); base64_digit ((n / 4096) mod 64);
       base64_digit ((n / 64) mod 64); base64_digit (n mod 64)]%N
      ++ base64_encode rest
  end.

(** [reader.result] after [readAsDataURL(file)]: a [data:] URL with the
    file's type (or [application/octet-stream] when it has none) and the
    Base64 text of its bytes. *)
Definition readAsDataURL (f : File) : jsstring :=
  js "data:"
  ++ (if truthy_string (type f) then type f else js "application/octet-stream")
  ++ js ";base64," ++ base64_encode (content f).

(** How the [FileReader] ends: its [onload] or its [onerror] fires. *)
Inductive ReaderEvent := onload | onerror.

(** [fileToBase64]: on load, [result.split(",")[1]] ([None] for
    [undefined]); on error the promise rejects with the reader's event,
    which is no [Error]. *)
Definition fileToBase64 (ev : ReaderEvent) (f : File) : Awaited (option jsstring) :=
  match ev with
  | onload => Fulfilled (split 44%N (readAsDataURL f) !! 1%nat)
  | onerror => Rejected ThrownOther
  end.

(** The object given to [JSON.stringify] as the request body; a field
    that is [undefined] is left out of the text: [None]. *)
Record UploadBody := {
  body_title : jsstring;
  file_content : option jsstring
}.

(** The fields [handleSubmit] reads off the parsed response. *)
Record UploadResult := {
  result_message : jsstring;
  result_id : Z;
  result_title : jsstring
}.

(** What the environment decides during one [handleSubmit]: how the file
    reader ends, and what the [fetch] settles to. *)
Record Env := {
  reader : ReaderEvent;
  server : Request UploadBody -> Awaited (Response UploadResult)
}.

(** One run of [handleSubmit]: the state after it, the [fetch] calls it
    made, and its calls of the [onQuizGenerated] prop. *)
Record Run := {
  after : State;
  requests : list (Request UploadBody);
  onQuizGenerated : list (Z * jsstring)
}.

(** The [catch] and [finally] blocks of [handleSubmit]. *)
Definition catch_finally (e : Thrown) (st : State) : State :=
  setIsUploading false
    (setUploadStatus
       {| status_type := Some error;
          status_message := message_or e (js "Upload failed. Please try again.") |}
       st).

(** The [fetch] call of [handleSubmit] (lines 54-64), with [base64] the
    value [fileToBase64] resolved to. *)
Definition upload_request (st : State) (base64 : option jsstring)
  : Request UploadBody :=
  let userId := 1 in
  {| url := js "/api/pdf-quizzes/upload";
     method := POST_;
     headers :=
       [(js "Content-Type", js "application/json");
        (js "Authorization", js "Bearer " ++ Number_toString userId)];
     body := Some {| body_title := trim (title st);
                     file_content := base64 |} |}.

(** The first branch of [handleSubmit]: nothing is sent. *)
Definition rejected_by_validation (st : State) : Run :=
  {| after :=
       setUploadStatus
         {| status_type := Some error;
            status_message := js "Please select a PDF file and enter a title." |}
         st;
     requests := []; onQuizGenerated := [] |}.

(** [handleSubmit], the form's [onSubmit]. *)
Definition handleSubmit (env : Env) (st : State) : Run :=
  match file st with
  | Some f =>
      if truthy_string (trim (title st)) then
        let st1 :=
          setUploadStatus {| status_type := None; status_message := js "" |}
            (setIsUploading true st) in
        match fileToBase64 (reader env) f with
        | Rejected e =>
            {| after := catch_finally e st1; requests := [];
               onQuizGenerated := [] |}
        | Fulfilled base64 =>
            let request := upload_request st base64 in
            let failed e :=
              {| after := catch_finally e st1; requests := [request];
                 onQuizGenerated := [] |} in
            match server env request with
            | Rejected e => failed e
            | Fulfilled response =>
                if negb (ok response) then
                  failed (ThrownError (js "Upload failed: " ++ statusText response))
                else
                  match json response with
                  | Rejected e => failed e
                  | Fulfilled result =>
                      {| after :=
                           setIsUploading false
                             (setTitle (js "")
                                (setFile None
                                   (setUploadStatus
                                      {| status_type := Some success;
                                         status_message := result_message result |}
                                      st1)));
                         requests := [request];
                         onQuizGenerated := [(result_id result, result_title result)] |}
                  end
            end
        end
      else rejected_by_validation st
  | None => rejected_by_validation st
  end.

(** The submit button's [disabled]: [isUploading || !file || !title.trim()]. *)
Definition submit_disabled (st : State) : bool :=
  isUploading st
  || match file st with Some _ => false | None => true end
  || negb (truthy_string (trim (title st))).

(** An upload succeeds with [result] when the form is valid, the file is
    read, the server's answer has a status in 200..299 and its body
    parses to [result]. *)
Definition upload_succeeds (env : Env) (st : State) (result : UploadResult) : Prop :=
  exists f base64 response,
    file st = Some f /\ trim (title st) <> []
    /\ fileToBase64 (reader env) f = Fulfilled base64
    /\ server env (upload_request st base64) = Fulfilled response
    /\ ok response = true /\ json response = Fulfilled result.

End PDFUpload.

(** ** The quiz view ([PDFQuizView] in [app/pdf-quiz/page.tsx]) *)

Module PDFQuizView.

Inductive QuestionType := mcq | short_answer.

(** Question identifiers are the integers the backend numbers its
    questions with. *)
Record QuizQuestion := {
  id : Z;
  question_text : jsstring;
  question_type : QuestionType;
  options : option (list jsstring);
  correct_answer : jsstring;
  hint : jsstring;
  citation : jsstring;
  points : Z
}.

Record QuizResult := {
  question_id : Z;
  is_correct : bool;
  user_answer : StringField;
  result_correct_answer : jsstring;
  result_citation : jsstring;
  points_earned : Z;
  total_points : Z
}.

(** The backend's answer to a submission.  The scores are integers; the
    percentage is whatever number the backend reports. *)
Record QuizSubmissionResponse := {
  question_results : list QuizResult;
  total_score : Z;
  max_score : Z;
  percentage : Q
}.

Record Quiz := {
  quiz_id : Z;
  quiz_title : jsstring;
  questions : list QuizQuestion
}.

(** The component's seven [useState] cells.  [answers] and [showHints] are
    the objects keyed by question id; a key that is absent reads as
    [undefined]. *)
Record State := {
  quiz : option Quiz;
  answers : gmap Z jsstring;
  showHints : gmap Z bool;
  isSubmitting : bool;
  results : option QuizSubmissionResponse;
  loading : bool;
  error : option jsstring
}.

Definition initial : State :=
  {| quiz := None; answers := ∅; showHints := ∅; isSubmitting := false;
     results := None; loading := true; error := None |}.

Definition setQuiz (v : option Quiz) (st : State) : State :=
  {| quiz := v; answers := answers st; showHints := showHints st;
     isSubmitting := isSubmitting st; results := results st;
     loading := loading st; error := error st |}.

(** [setAnswers(prev => f(prev))] *)
Definition setAnswers (f : gmap Z jsstring -> gmap Z jsstring) (st : State) : State :=
  {| quiz := quiz st; answers := f (answers st); showHints := showHints st;
     isSubmitting := isSubmitting st; results := results st;
     loading := loading st; error := error st |}.

(** [setShowHints(prev => f(prev))] *)
Definition setShowHints (f : gmap Z bool -> gmap Z bool) (st : State) : State :=
  {| quiz := quiz st; answers := answers st; showHints := f (showHints st);
     isSubmitting := isSubmitting st; results := results st;
     loading := loading st; error := error st |}.

Definition setIsSubmitting (v : bool) (st : State) : State :=
  {| quiz := quiz st; answers := answers st; showHints := showHints st;
     isSubmitting := v; results := results st;
     loading := loading st; error := error st |}.

Definition setResults (v : option QuizSubmissionResponse) (st : State) : State :=
  {| quiz := quiz st; answers := answers st; showHints := showHints st;
     isSubmitting := isSubmitting st; results := v;
     loading := loading st; error := error st |}.

Definition setLoading (v : bool) (st : State) : State :=
  {| quiz := quiz st; answers := answers st; showHints := showHints st;
     isSubmitting := isSubmitting st; results := results st;
     loading := v; error := error st |}.

Definition setError (v : option jsstring) (st : State) : State :=
  {| quiz := quiz st; answers := answers st; showHints := showHints st;
     isSubmitting := isSubmitting st; results := results st;
     loading := loading st; error := v |}.

(** [handleAnswerChange]: [{ ...prev, [questionId]: answer }] *)
Definition handleAnswerChange (questionId : Z) (answer : jsstring) (st : State) : State :=
  setAnswers (fun prev => <[questionId := answer]> prev) st.

(** The updater of [toggleHint]: [{ ...prev, [questionId]: !prev[questionId] }] *)
Definition toggle (questionId : Z) (prev : gmap Z bool) : gmap Z bool :=
  <[questionId := negb (truthy_opt_bool (prev !! questionId))]> prev.

Definition toggleHint (questionId : Z) (st : State) : State :=
  setShowHints (toggle questionId) st.

(** What the hint block of a question renders from: [showHints[question.id]]
    as a condition.  The hint text is shown, and the button reads
    "Hide Hint", exactly when it is truthy. *)
Definition hint_visible (sh : gmap Z bool) (questionId : Z) : bool :=
  truthy_opt_bool (sh !! questionId).

Definition hint_button_label (sh : gmap Z bool) (questionId : Z) : jsstring :=
  if hint_visible sh questionId then js "Hide Hint" else js "Show Hint".

(** One element of the [answers] array of a submission. *)
Record SubmittedAnswer := {
  answer_question_id : Z;
  answer : jsstring
}.

Record SubmissionData := {
  submission_quiz_id : Z;
  submitted_answers : list SubmittedAnswer
}.

Definition key_le (a b : Z * jsstring) : Prop := a.1 <= b.1.

#[local] Instance key_le_dec : RelDecision key_le.
Proof. intros a b. unfold key_le. apply _. Defined.

(** [Object.entries(answers)].  JavaScript lists the keys that are array
    indices (integers from 0 to [2^32 - 2]) in ascending order, as the
    model does for every key; other keys follow in the order they were
    first written, which the map does not record. *)
Definition Object_entries (m : gmap Z jsstring) : list (Z * jsstring) :=
  merge_sort key_le (map_to_list m).

Section Component.

(** The [quizId] prop. *)
Variable quizId : Z.

(** [fetchQuiz] up to its [await fetch]: the state, and the call made. *)
Definition fetchQuiz_start (st : State) : State * list (Request SubmissionData) :=
  let userId := 1 in
  (setLoading true st,
   [{| url := js "/api/pdf-quizzes/quiz/" ++ Number_toString quizId;
       method := GET_;
       headers := [(js "Authorization", js "Bearer " ++ Number_toString userId)];
       body := None |}]).

(** The [catch] and [finally] blocks of [fetchQuiz]. *)
Definition fetchQuiz_failed (e : Thrown) (st : State) : State :=
  setLoading false (setError (Some (message_or e (js "Failed to load quiz"))) st).

(** [fetchQuiz] from the point where its [fetch] settles. *)
Definition fetchQuiz_settle (outcome : Awaited (Response Quiz)) (st : State) : State :=
  match outcome with
  | Rejected e => fetchQuiz_failed e st
  | Fulfilled response =>
      if negb (ok response) then
        fetchQuiz_failed
          (ThrownError (js "Failed to fetch quiz: " ++ statusText response)) st
      else
        match json response with
        | Rejected e => fetchQuiz_failed e st
        | Fulfilled quizData => setLoading false (setQuiz (Some quizData) st)
        end
  end.

(** [handleSubmit] up to its [await fetch]: nothing when there is no quiz;
    otherwise [isSubmitting] is set and the answers held by the state are
    posted.  [parseInt(questionId)] gives back the integer the key was
    written from as long as the key is plain digits, that is for ids below
    [10^21] in absolute value; the model takes it so for every id. *)
Definition handleSubmit_start (st : State) : State * list (Request SubmissionData) :=
  match quiz st with
  | None => (st, [])
  | Some _ =>
      let userId := 1 in
      let submissionData :=
        {| submission_quiz_id := quizId;
           submitted_answers :=
             List.map (fun '(questionId, answer) =>
                         {| answer_question_id := questionId; answer := answer |})
                      (Object_entries (answers st)) |} in
      (setIsSubmitting true st,
       [{| url := js "/api/pdf-quizzes/quiz/" ++ Number_toString quizId ++ js "/submit";
           method := POST_;
           headers :=
             [(js "Content-Type", js "application/json");
              (js "Authorization", js "Bearer " ++ Number_toString userId)];
           body := Some submissionData |}])
  end.

(** The [catch] and [finally] blocks of [handleSubmit]. *)
Definition handleSubmit_failed (e : Thrown) (st : State) : State :=
  setIsSubmitting false
    (setError (Some (message_or e (js "Failed to submit quiz"))) st).

(** [handleSubmit] from the point where its [fetch] settles. *)
Definition handleSubmit_settle
  (outcome : Awaited (Response QuizSubmissionResponse)) (st : State) : State :=
  match outcome with
  | Rejected e => handleSubmit_failed e st
  | Fulfilled response =>
      if negb (ok response) then
        handleSubmit_failed
          (ThrownError (js "Submission failed: " ++ statusText response)) st
      else
        match json response with
        | Rejected e => handleSubmit_failed e st
        | Fulfilled result => setIsSubmitting false (setResults (Some result) st)
        end
  end.

(** [getQuestionResult]: [null] without results, else the first result
    of the question ([undefined], here [None] as well, when there is none). *)
Definition getQuestionResult (questionId : Z) (st : State) : option QuizResult :=
  r ← results st;
  List.find (fun x => question_id x =? questionId) (question_results r).

(** The test of the submit button's [some]:
    [!answers[q.id] || answers[q.id].trim() === ""]. *)
Definition unanswered (a : gmap Z jsstring) (q : QuizQuestion) : bool :=
  match a !! id q with
  | None => true
  | Some s => negb (truthy_string s) || bool_decide (trim s = js "")
  end.

(** The submit button's [disabled] attribute. *)
Definition submit_disabled (st : State) : bool :=
  isSubmitting st
  || match quiz st with
     | None => true
     | Some q => existsb (unanswered (answers st)) (questions q)
     end.

(** The line of the results summary:
    [Score: {total_score}/{max_score} ({percentage.toFixed(1)}%)]. *)
Definition score_line (r : QuizSubmissionResponse) : option jsstring :=
  p ← Number_toFixed 1 (percentage r);
  Some (js "Score: " ++ Number_toString (total_score r) ++ js "/"
        ++ Number_toString (max_score r) ++ js " (" ++ p ++ js "%)").

(** The submit button as rendered. *)
Record SubmitButton := {
  disabled : bool
}.

(** What the component returns: the spinner, the error panel, the "Quiz not
    found" panel, or the quiz page with its questions, the results summary
    when there are results and the submit button when there are none. *)
Inductive View :=
| Spinner
| ErrorPanel (message : jsstring)
| NotFound
| Page (shown : Quiz) (summary : option QuizSubmissionResponse)
       (submit : option SubmitButton).

Definition render (st : State) : View :=
  if loading st then Spinner
  else if truthy_opt_string (error st) then ErrorPanel (default [] (error st))
  else match quiz st with
       | None => NotFound
       | Some q =>
           Page q (results st)
             (match results st with
              | Some _ => None
              | None => Some {| disabled := submit_disabled st |}
              end)
       end.

(** A click on the submit button: it reaches [handleSubmit] when the
    button is on the page and not disabled. *)
Definition click_submit (st : State) : State * list (Request SubmissionData) :=
  match render st with
  | Page _ _ (Some button) =>
      if disabled button then (st, []) else handleSubmit_start st
  | _ => (st, [])
  end.

End Component.

(** A question is answered when the state holds an answer for it whose
    trimmed value is not empty. *)
Definition answered (a : gmap Z jsstring) (question : QuizQuestion) : Prop :=
  exists s, a !! id question = Some s /\ trim s <> [].

(** A question is blank when its answer is absent, or trims to the empty
    string (the empty and the white-space-only answers). *)
Definition blank (a : gmap Z jsstring) (question : QuizQuestion) : Prop :=
  a !! id question = None \/ exists s, a !! id question = Some s /\ trim s = [].

(** The Answering sub-state showing quiz [q]: the page is rendered without
    results, hence with its submit button. *)
Definition Answering (st : State) (q : Quiz) : Prop :=
  render st = Page q None (Some {| disabled := submit_disabled st |}).

End PDFQuizView.

(** ** The page ([PDFQuizPage] in [app/pdf-quiz/page.tsx]) *)

Module PDFQuizPage.

Record CurrentQuiz := {
  current_id : Z;
  current_title : jsstring
}.

(** The page's one [useState] cell, [currentQuiz]. *)
Definition State : Type := option CurrentQuiz.

Definition initial : State := None.

(** [handleQuizGenerated], given to the upload form as [onQuizGenerated]. *)
Definition handleQuizGenerated (quizId : Z) (title : jsstring) (st : State) : State :=
  Some {| current_id := quizId; current_title := title |}.

(** [handleBackToUpload], given to the quiz view as [onBack]. *)
Definition handleBackToUpload (st : State) : State := None.

(** The child the page renders: the quiz view of the current quiz, or the
    upload form. *)
Inductive Child :=
| ShowQuizView (quizId : Z)
| ShowUpload.

Definition render (st : State) : Child :=
  match st with
  | Some current => ShowQuizView (current_id current)
  | None => ShowUpload
  end.

(** The page after one run of the upload form's [handleSubmit]: each call
    of [onQuizGenerated] it made is applied in turn. *)
Definition after_upload (run : PDFUpload.Run) (st : State) : State :=
  fold_left (fun acc '(quizId, title) => handleQuizGenerated quizId title acc)
            (PDFUpload.onQuizGenerated run) st.

End PDFQuizPage.

(** ** Scenarios

    Concrete runs of the components, which the examples below are stated
    at, and the statements C2, C3, C4, C6 and C7 in the specification's own
    wording, which these runs refute. *)

Module QuizScenarios.
Import PDFQuizView.

(** Sample data: a quiz of three questions, fetched, answered in full, and
    submitted. *)
Definition sample_question (n : Z) : QuizQuestion :=
  {| id := n; question_text := js "What is a cell?";
     question_type := short_answer; options := None;
     correct_answer := js "a unit of life"; hint := js "biology";
     citation := js "p. 1"; points := 1 |}.

Definition sample_quiz : Quiz :=
  {| quiz_id := 5; quiz_title := js "Cells";
     questions := [sample_question 1; sample_question 2; sample_question 3] |}.

Definition responded {A} (a : A) : Awaited (Response A) :=
  Fulfilled {| status := 200; statusText := js "OK";
               text := Fulfilled (js ""); json := Fulfilled a |}.

Definition loaded : State := fetchQuiz_settle (responded sample_quiz) initial.

Definition ready : State :=
  handleAnswerChange 3 (js "c")
    (handleAnswerChange 2 (js "b") (handleAnswerChange 1 (js "a") loaded)).

(** The state while the submission is in flight. *)
Definition in_flight : State := (click_submit 5 ready).1.

(** The state after the backend has graded two of three, reporting the
    percentage as the whole number 67. *)
Definition graded_67 : State :=
  handleSubmit_settle
    (responded {| question_results := []; total_score := 2; max_score := 3;
                  percentage := 67 # 1 |})
    in_flight.

(** The same, with the percentage reported as 66.66666666666667. *)
Definition graded_two_thirds : State :=
  handleSubmit_settle
    (responded {| question_results := []; total_score := 2; max_score := 3;
                  percentage := 6666666666666667 # 100000000000000 |})
    in_flight.

(** C2 as stated: in the Answering sub-state the button is disabled if and
    only if some question is blank. *)
Definition disabled_iff_blank (st : State) : Prop :=
  forall q,
    Answering st q ->
    (submit_disabled st = true <->
     exists question, question ∈ questions q /\ blank (answers st) question).

(** C4 as stated: the score text is fixed by the two scores. *)
Definition renders_two_of_three (st : State) : Prop :=
  forall q r submit,
    render st = Page q (Some r) submit ->
    length (questions q) = 3%nat ->
    total_score r = 2 -> max_score r = 3 ->
    score_line r = Some (js "Score: " ++ js "2/3 (66.7%)").

End QuizScenarios.

Module ProxyScenarios.
Import Proxy.

(** Sample traffic: a backend that answers 404 and whose body cannot be
    read, one that answers 404 with a body, one that answers 304, and one
    that answers 200 with JSON.  The JSON values are integers here. *)
Definition answers_with (s : Z) (st : jsstring) (t : Awaited jsstring)
    (j : Awaited Z) : Request Z -> Awaited (Response Z) :=
  fun _ => Fulfilled {| status := s; statusText := st; text := t; json := j |}.

Definition not_found_unreadable : Request Z -> Awaited (Response Z) :=
  answers_with 404 (js "Not Found")
    (Rejected (ThrownError (js "terminated")))
    (Rejected (ThrownError (js "terminated"))).

Definition not_found : Request Z -> Awaited (Response Z) :=
  answers_with 404 (js "Not Found") (Fulfilled (js "no such quiz"))
    (Rejected (ThrownError (js "Unexpected token"))).

Definition not_modified : Request Z -> Awaited (Response Z) :=
  answers_with 304 (js "Not Modified") (Fulfilled (js ""))
    (Rejected (ThrownError (js "Unexpected end of JSON input"))).

Definition found : Request Z -> Awaited (Response Z) :=
  answers_with 200 (js "OK") (Fulfilled (js "42")) (Fulfilled 42).

Definition bearer_request : NextRequest Z :=
  {| headers_get_Authorization := Some (js "Bearer 1");
     request_json := Fulfilled 7 |}.

Definition anonymous_request : NextRequest Z :=
  {| headers_get_Authorization := None; request_json := Fulfilled 7 |}.

(** A request whose body is not JSON. *)
Definition malformed_request : NextRequest Z :=
  {| headers_get_Authorization := Some (js "Bearer 1");
     request_json := Rejected (ThrownError (js "Unexpected token")) |}.

(** C3 as stated, for the fetch proxy: a backend answer outside 200..299
    comes back with the backend's status and status text. *)
Definition backend_status_preserved
    (backend : Request Z -> Awaited (Response Z))
    (request : NextRequest Z) (quizId : jsstring) : Prop :=
  forall r,
    backend (Proxy.quiz_call Z None request quizId) = Fulfilled r ->
    ok r = false ->
    (Proxy.GET Z None backend request quizId).2 = Some (backend_error r).

(** C7 as stated, for the upload proxy: exactly one backend call for
    every incoming request. *)
Definition exactly_one_call
    (backend : Request Z -> Awaited (Response Z)) (request : NextRequest Z) : Prop :=
  exists call, (Proxy.POST Z None backend request).1 = [call].

(** C7 as stated, for the body: what the upload proxy posts is the text
    it received, unchanged.  The received text is an integer literal; the
    request carries the value [request.json()] parses from it. *)
Definition forwards_text_unchanged
    (backend : Request Z -> Awaited (Response Z)) (text : jsstring) : Prop :=
  forall value,
    JSONText.JSON_parse_integer text = Some value ->
    exists call posted,
      (Proxy.POST Z None backend
         {| headers_get_Authorization := Some (js "Bearer 1");
            request_json := Fulfilled value |}).1 = [call]
      /\ body call = Some posted
      /\ JSONText.JSON_stringify_integer posted = Some text.

(** A request without an Authorization header whose body is not JSON. *)
Definition anonymous_malformed_request : NextRequest Z :=
  {| headers_get_Authorization := None;
     request_json := Rejected (ThrownError (js "Unexpected token")) |}.

(** C9 as stated, for the upload proxy: a request without the header makes
    the proxy send a call whose Authorization header is the empty
    string. *)
Definition upload_sends_empty_authorization
    (backend : Request Z -> Awaited (Response Z)) (request : NextRequest Z) : Prop :=
  headers_get_Authorization request = None ->
  exists call,
    call ∈ (Proxy.POST Z None backend request).1
    /\ (js "Authorization", js "") ∈ headers call.

End ProxyScenarios.

Module UploadScenarios.
Import PDFUpload.

(** Sample data: a PDF of six bytes, a text file, and the form after the
    PDF was chosen. *)
Definition notes_pdf : File :=
  {| name := js "notes.PDF"; type := js "application/pdf";
     content := list_byte_of_string "foobar" |}.

Definition notes_txt : File :=
  {| name := js "notes.txt"; type := js "text/plain";
     content := list_byte_of_string "foobar" |}.

Definition chosen : State := handleFileChange (Some notes_pdf) initial.

Definition created : UploadResult :=
  {| result_message := js "Quiz generated"; result_id := 5;
     result_title := js "notes" |}.

(** An environment in which the file is read and the server answers 200
    with [created]; one in which the file cannot be read; one in which the
    server answers 500. *)
Definition all_well : Env :=
  {| reader := onload;
     server := fun _ =>
       Fulfilled {| status := 200; statusText := js "OK";
                    text := Fulfilled (js ""); json := Fulfilled created |} |}.

Definition unreadable_file : Env :=
  {| reader := onerror; server := server all_well |}.

Definition server_down : Env :=
  {| reader := onload;
     server := fun _ =>
       Fulfilled {| status := 500; statusText := js "Internal Server Error";
                    text := Fulfilled (js "");
                    json := Rejected (ThrownError (js "Unexpected token")) |} |}.

(** C6 as stated: with a PDF chosen and a title that is not blank, a
    submission issues exactly one request. *)
Definition issues_one_request (env : Env) (st : State) : Prop :=
  forall f,
    file st = Some f -> type f = js "application/pdf" -> trim (title st) <> [] ->
    exists request, requests (handleSubmit env st) = [request].

End UploadScenarios.

(** ** The upload form as the user drives it *)

Module UploadEvents.
Import PDFUpload.

(** The title input's [onChange]: [(e) => setTitle(e.target.value)]. *)
Definition handleTitleChange (value : jsstring) (st : State) : State :=
  setTitle value st.

(** What the user does to the form: choose a file (or close the dialog
    without one), edit the title, submit. *)
Inductive Event :=
| ChooseFile (selectedFile : option File)
| EditTitle (value : jsstring)
| SubmitForm (env : Env).

(** A handler that sends nothing. *)
Definition quiet (st : State) : Run :=
  {| after := st; requests := []; onQuizGenerated := [] |}.

(** One event.  The form is submitted through its submit button (a click,
    or Enter in the title field, which acts through the same button): a
    disabled button submits nothing. *)
Definition dispatch (ev : Event) (st : State) : Run :=
  match ev with
  | ChooseFile selectedFile => quiet (handleFileChange selectedFile st)
  | EditTitle value => quiet (handleTitleChange value st)
  | SubmitForm env =>
      if submit_disabled st then quiet st else handleSubmit env st
  end.

(** The states the form can be in: those a sequence of events leads to
    from the state it is mounted in. *)
Inductive Reachable : State -> Prop :=
| reach_initial : Reachable initial
| reach_step ev st : Reachable st -> Reachable (after (dispatch ev st)).

(** The endings [/\.pdf$/i] matches: a dot and the letters p, d, f, each
    in either case. *)
Definition pdf_extension (ext : jsstring) : Prop :=
  exists p d f,
    ext = [46%N; p; d; f]
    /\ (p = 112%N \/ p = 80%N) /\ (d = 100%N \/ d = 68%N)
    /\ (f = 102%N \/ f = 70%N).

End UploadEvents.

(** ** The question cards of the quiz view (lines 271-416) *)

Module QuizCards.
Import PDFQuizView.

(** The border of a card: green or red once there are results, gray
    before. *)
Inductive Border := border_green | border_red | border_gray.

Inductive Icon := CheckCircle | XCircle.

(** The block under a question once there are results. *)
Record ResultsBlock := {
  your_answer : jsstring;
  shown_correct_answer : jsstring;
  points_text : jsstring
}.

(** One radio option of a multiple-choice question. *)
Record OptionLabel := {
  option_value : jsstring;
  checked : bool;
  marked_correct : bool;
  marked_wrong : bool
}.

Inductive Input :=
| Radios (labels : list OptionLabel)
| Textarea (value : jsstring).

Record Card := {
  number : nat;
  border : Border;
  icon : option Icon;
  input : Input;
  input_disabled : bool;
  hint_label : jsstring;
  hint_panel : option jsstring;
  results_block : option ResultsBlock
}.

(** [answers[question.id] === option] *)
Definition is_chosen (a : gmap Z jsstring) (questionId : Z) (opt : jsstring) : bool :=
  bool_decide (a !! questionId = Some opt).

(** The text after "Your Answer:",
    [result && result.user_answer !== undefined && result.user_answer !== ""
     ? result.user_answer : answers[question.id] || "No answer provided"].
    A [user_answer] that is [null] passes both tests, and React renders
    [null] as no text at all. *)
Definition your_answer_text (result : option QuizResult)
    (a : gmap Z jsstring) (questionId : Z) : jsstring :=
  match result with
  | Some r =>
      match user_answer r with
      | StringValue s =>
          if truthy_string s then s
          else or_string (a !! questionId) (js "No answer provided")
      | NullValue => js ""
      | MissingValue => or_string (a !! questionId) (js "No answer provided")
      end
  | None => or_string (a !! questionId) (js "No answer provided")
  end.

(** The text after "Points:": earned over total, 0 for a missing
    result. *)
Definition points_of (result : option QuizResult) : jsstring :=
  Number_toString (match result with Some r => points_earned r | None => 0 end)
  ++ js "/"
  ++ Number_toString (match result with Some r => total_points r | None => 0 end).

(** The body of [quiz.questions.map((question, index) => ...)]. *)
Definition card (st : State) (index : nat) (question : QuizQuestion) : Card :=
  let result := getQuestionResult (id question) st in
  let isCorrect :=
    match result with Some r => is_correct r | None => false end in
  let showResult :=
    match results st with Some _ => true | None => false end in
  {| number := index + 1;
     border :=
       if showResult then (if isCorrect then border_green else border_red)
       else border_gray;
     icon :=
       if showResult then Some (if isCorrect then CheckCircle else XCircle)
       else None;
     input :=
       match question_type question with
       | mcq =>
           Radios
             (List.map
                (fun opt =>
                   {| option_value := opt;
                      checked := is_chosen (answers st) (id question) opt;
                      marked_correct :=
                        showResult
                        && bool_decide (opt = correct_answer question);
                      marked_wrong :=
                        showResult
                        && negb (bool_decide (opt = correct_answer question))
                        && is_chosen (answers st) (id question) opt
                        && negb isCorrect |})
                (default [] (options question)))
       | short_answer =>
           Textarea (or_string (answers st !! id question) (js ""))
       end;
     input_disabled := showResult;
     hint_label := hint_button_label (showHints st) (id question);
     hint_panel :=
       if hint_visible (showHints st) (id question) then Some (hint question)
       else None;
     results_block :=
       if showResult then
         Some {| your_answer :=
                   your_answer_text result (answers st) (id question);
                 shown_correct_answer := correct_answer question;
                 points_text := points_of result |}
       else None |}.

(** The cards of the page, in the order of the quiz's questions. *)
Definition cards (st : State) (q : Quiz) : list Card :=
  imap (card st) (questions q).

End QuizCards.

(** ** Further scenarios for the quiz view *)

Module QuizAnswers.
Import PDFQuizView QuizScenarios.

(** The answer to a fetch of a quiz that does not exist. *)
Definition quiz_not_found : Response Quiz :=
  {| status := 404; statusText := js "Not Found";
     text := Fulfilled (js "{}"); json := Rejected ThrownOther |}.

(** A quiz without questions, and the answer that carries it. *)
Definition empty_quiz : Quiz :=
  {| quiz_id := 9; quiz_title := js "Empty"; questions := [] |}.

Definition empty_quiz_found : Response Quiz :=
  {| status := 200; statusText := js "OK";
     text := Fulfilled (js "{}"); json := Fulfilled empty_quiz |}.

(** A grading endpoint that is down. *)
Definition grading_down : Response QuizSubmissionResponse :=
  {| status := 503; statusText := js "Service Unavailable";
     text := Fulfilled (js "{}"); json := Rejected ThrownOther |}.

(** The grading of the sample quiz: question 1 right, question 2 wrong
    with the answer echoed, and no entry for question 3. *)
Definition grading : QuizSubmissionResponse :=
  {| question_results :=
       [{| question_id := 1; is_correct := true;
           user_answer := StringValue (js "a");
           result_correct_answer := js "a"; result_citation := js "p. 1";
           points_earned := 1; total_points := 1 |};
        {| question_id := 2; is_correct := false;
           user_answer := StringValue (js "");
           result_correct_answer := js "x"; result_citation := js "p. 2";
           points_earned := 0; total_points := 1 |}];
     total_score := 1; max_score := 3; percentage := 100 # 3 |}.

(** The same grading with [null] as the echo for question 2. *)
Definition grading_null : QuizSubmissionResponse :=
  {| question_results :=
       [{| question_id := 2; is_correct := false; user_answer := NullValue;
           result_correct_answer := js "x"; result_citation := js "p. 2";
           points_earned := 0; total_points := 1 |}];
     total_score := 0; max_score := 3; percentage := 0 |}.

Definition graded_null : State :=
  handleSubmit_settle
    (Fulfilled {| status := 200; statusText := js "OK";
                  text := Fulfilled (js "{}"); json := Fulfilled grading_null |})
    in_flight.

Definition grading_found : Response QuizSubmissionResponse :=
  {| status := 200; statusText := js "OK";
     text := Fulfilled (js "{}"); json := Fulfilled grading |}.

Definition graded : State :=
  handleSubmit_settle (Fulfilled grading_found) in_flight.

End QuizAnswers.

(** * Properties *)

(** ** Facts about [trim] and [split] *)

Module JSFacts.

Lemma trimStart_head s c t :
  trimStart s = c :: t -> isWhiteSpace c = false.
Proof.
  induction s as [|x s IH]; simpl; [discriminate|].
  destruct (isWhiteSpace x) eqn:Hx; [exact IH|].
  intros [= <- _]. exact Hx.
Qed.

Lemma trimStart_nil_iff s :
  trimStart s = [] <-> Forall (fun c => isWhiteSpace c = true) s.
Proof.
  induction s as [|x s IH]; simpl.
  - split; [constructor | reflexivity].
  - destruct (isWhiteSpace x) eqn:Hx.
    + rewrite IH. split; [intros H; constructor; assumption|].
      intros H. inversion H; assumption.
    + split; [discriminate|]. intros H. inversion H; congruence.
Qed.

Lemma trimStart_whitespace_inv s :
  Forall (fun c => isWhiteSpace c = true) (trimStart s) -> trimStart s = [].
Proof.
  destruct (trimStart s) as [|c t] eqn:E; [reflexivity|].
  intros H. apply trimStart_head in E. inversion H; congruence.
Qed.

(** [s.trim()] is empty exactly when [s] is made of white space only (the
    empty string included). *)
Lemma trim_nil_iff s :
  trim s = [] <-> Forall (fun c => isWhiteSpace c = true) s.
Proof.
  unfold trim, trimEnd. split.
  - intros H. apply trimStart_nil_iff.
    apply trimStart_whitespace_inv.
    rewrite <- (rev_involutive (trimStart s)). apply Forall_rev.
    apply trimStart_nil_iff.
    apply (f_equal (@rev N)) in H. rewrite rev_involutive in H. exact H.
  - intros H. apply trimStart_nil_iff in H. rewrite H. reflexivity.
Qed.

Lemma trim_truthy s : trim s <> [] -> truthy_string s = true.
Proof. destruct s; [intros H; exfalso; apply H; reflexivity | reflexivity]. Qed.

Lemma truthy_string_true s : truthy_string s = true <-> s <> [].
Proof. destruct s; simpl; split; congruence. Qed.

Lemma split_no_sep sep s :
  Forall (fun c => c <> sep) s -> split sep s = [s].
Proof.
  induction 1 as [|c s Hc _ IH]; simpl; [reflexivity|].
  apply N.eqb_neq in Hc. rewrite Hc, IH. reflexivity.
Qed.

(** Splitting at the first separator. *)
Lemma split_app sep a b :
  Forall (fun c => c <> sep) a ->
  split sep (a ++ sep :: b) = a :: split sep b.
Proof.
  induction 1 as [|c a Hc _ IH]; simpl.
  - rewrite N.eqb_refl. reflexivity.
  - apply N.eqb_neq in Hc. rewrite Hc, IH. reflexivity.
Qed.

Lemma Qfloor_unique (x : Q) (n : Z) :
  (inject_Z n <= x)%Q -> (x < inject_Z (n + 1))%Q -> Qfloor x = n.
Proof.
  intros Hlo Hhi.
  pose proof (Qfloor_le x) as Hf. pose proof (Qlt_floor x) as Hc.
  assert (H1 : (inject_Z n < inject_Z (Qfloor x + 1))%Q)
    by (eapply Qle_lt_trans; eassumption).
  assert (H2 : (inject_Z (Qfloor x) < inject_Z (n + 1))%Q)
    by (eapply Qle_lt_trans; eassumption).
  rewrite <- Zlt_Qlt in H1, H2. lia.
Qed.

(** [toFixed] on a number that is not negative and below [10^21]. *)
Lemma Number_toFixed_nonneg (f : nat) (x : Q) :
  (0 <= x)%Q -> (x < inject_Z (10 ^ 21))%Q ->
  Number_toFixed f x
  = Some (place_point f (Qfloor (x * inject_Z (10 ^ Z.of_nat f) + (1 # 2))%Q)).
Proof.
  intros H0 Hbig. unfold Number_toFixed.
  pose proof (Qabs_pos x H0) as Habs.
  destruct (Qle_bool (inject_Z (10 ^ 21)) (Qabs x)) eqn:E.
  - apply Qle_bool_iff in E. rewrite Habs in E.
    exfalso. apply (Qlt_not_le _ _ Hbig E).
  - apply Qle_bool_iff in H0. rewrite H0. do 2 f_equal.
    apply Qfloor_comp. rewrite Habs. reflexivity.
Qed.

End JSFacts.

(** ** The quiz view *)

Module QuizViewSpec.
Import PDFQuizView QuizScenarios.

Lemma unanswered_false a question :
  unanswered a question = false <-> answered a question.
Proof.
  unfold unanswered, answered. destruct (a !! id question) as [s|].
  - rewrite orb_false_iff, negb_false_iff, bool_decide_eq_false. split.
    + intros [_ H]. exists s. split; [reflexivity | exact H].
    + intros (s' & [= <-] & H). split; [|exact H].
      apply JSFacts.trim_truthy, H.
  - split; [discriminate|]. intros (s & H & _). discriminate.
Qed.

Lemma unanswered_true a question :
  unanswered a question = true <-> blank a question.
Proof.
  unfold unanswered, blank. destruct (a !! id question) as [s|].
  - rewrite orb_true_iff, negb_true_iff, bool_decide_eq_true. split.
    + intros [H|H]; right; exists s; (split; [reflexivity|]); [|exact H].
      destruct s; [reflexivity | discriminate].
    + intros [H|(s' & [= <-] & H)]; [discriminate | right; exact H].
  - split; [left; reflexivity | reflexivity].
Qed.

Lemma blank_not_answered a question :
  blank a question <-> ~ answered a question.
Proof.
  rewrite <- unanswered_true, <- unanswered_false.
  destruct (unanswered a question); split; congruence.
Qed.

Lemma some_unanswered a (qs : list QuizQuestion) :
  existsb (unanswered a) qs = true <->
  exists question, question ∈ qs /\ blank a question.
Proof.
  rewrite existsb_exists. split; intros (question & Hin & H); exists question.
  - apply list_elem_of_In in Hin. apply unanswered_true in H. tauto.
  - apply list_elem_of_In in Hin. apply unanswered_true in H. tauto.
Qed.

Lemma none_unanswered a (qs : list QuizQuestion) :
  existsb (unanswered a) qs = false <->
  forall question, question ∈ qs -> answered a question.
Proof.
  split.
  - intros H question Hin. apply unanswered_false.
    destruct (unanswered a question) eqn:E; [|reflexivity].
    rewrite <- H. symmetry. apply existsb_exists. exists question.
    split; [apply list_elem_of_In, Hin | exact E].
  - intros H. destruct (existsb (unanswered a) qs) eqn:E; [|reflexivity].
    apply existsb_exists in E as (question & Hin & E).
    apply list_elem_of_In, H, unanswered_false in Hin. congruence.
Qed.

(** The page with its submit button is what a state that is not loading,
    has no error, holds a quiz and has no results renders. *)
Lemma render_submit st q r button :
  render st = Page q r (Some button) ->
  quiz st = Some q /\ results st = None /\ r = None
  /\ disabled button = submit_disabled st.
Proof.
  unfold render. destruct (loading st); [discriminate|].
  destruct (truthy_opt_string (error st)); [discriminate|].
  destruct (quiz st) as [q'|]; [|discriminate].
  destruct (results st); [discriminate|].
  intros [= <- <- <-]. auto.
Qed.

(** C1.  A click on the submit button issues [handleSubmit]'s POST only
    from a state that holds a quiz all of whose questions are answered (an
    answer whose trimmed value is not empty); and whenever the button is on
    the page and some question is not answered, the button is disabled and
    a click issues nothing. *)
Theorem submit_only_when_all_answered (quizId : Z) (st : State) :
  ((click_submit quizId st).2 <> [] ->
   exists q, quiz st = Some q
     /\ (forall question, question ∈ questions q -> answered (answers st) question)
     /\ click_submit quizId st = handleSubmit_start quizId st)
  /\ (forall q r button question,
        render st = Page q r (Some button) ->
        question ∈ questions q -> ~ answered (answers st) question ->
        disabled button = true /\ click_submit quizId st = (st, [])).
Proof.
  split.
  - unfold click_submit. destruct (render st) as [| | |q r [button|]] eqn:R;
      simpl; try congruence.
    apply render_submit in R as (Hq & _ & _ & Hd).
    destruct (disabled button) eqn:D; simpl; [congruence|]. intros _.
    exists q. split; [exact Hq|]. split; [|reflexivity].
    apply none_unanswered. symmetry in Hd.
    unfold submit_disabled in Hd. rewrite Hq in Hd.
    apply orb_false_iff in Hd. tauto.
  - intros q r button question R Hin Hna.
    assert (D : disabled button = true).
    { apply render_submit in R as (Hq & _ & _ & ->).
      unfold submit_disabled. rewrite Hq. apply orb_true_iff. right.
      apply some_unanswered. exists question. split; [exact Hin|].
      apply blank_not_answered, Hna. }
    split; [exact D|]. unfold click_submit. rewrite R, D. reflexivity.
Qed.

(** On the sample quiz, answered in full: the click issues the request. *)
Lemma submit_only_when_all_answered_witness :
  (click_submit 5 ready).2 <> []
  /\ exists q, quiz ready = Some q
       /\ (forall question, question ∈ questions q -> answered (answers ready) question)
       /\ click_submit 5 ready = handleSubmit_start 5 ready.
Proof.
  split.
  - vm_compute. discriminate.
  - apply (proj1 (submit_only_when_all_answered 5 ready)).
    vm_compute. discriminate.
Defined.

(** C2, counterexample.  While a submission is in flight the state is in
    the Answering sub-state, every question is answered, and the button is
    disabled all the same. *)
Lemma disabled_iff_blank_fails_in_flight : ~ disabled_iff_blank in_flight.
Proof.
  intros H. destruct (H sample_quiz eq_refl) as [H1 _].
  destruct (H1 eq_refl) as (question & Hin & Hb).
  apply blank_not_answered in Hb. apply Hb.
  apply (none_unanswered (answers in_flight) (questions sample_quiz));
    [reflexivity | exact Hin].
Qed.

(** C2, amended.  In the Answering sub-state the submit button is disabled
    if and only if a submission is in flight ([isSubmitting]) or some
    question is blank. *)
Theorem disabled_iff_submitting_or_blank (st : State) (q : Quiz) :
  Answering st q ->
  (submit_disabled st = true <->
   isSubmitting st = true
   \/ exists question, question ∈ questions q /\ blank (answers st) question).
Proof.
  intros R. apply render_submit in R as (Hq & _).
  unfold submit_disabled. rewrite Hq, orb_true_iff, some_unanswered.
  reflexivity.
Qed.

(** On the sample quiz just fetched: nothing is answered yet. *)
Lemma disabled_iff_submitting_or_blank_witness :
  Answering loaded sample_quiz
  /\ (submit_disabled loaded = true <->
      isSubmitting loaded = true
      \/ exists question,
           question ∈ questions sample_quiz /\ blank (answers loaded) question).
Proof.
  split.
  - reflexivity.
  - apply (disabled_iff_submitting_or_blank loaded sample_quiz). reflexivity.
Defined.

(** What the in-flight state looks like: the page of the sample quiz, no
    results, the button disabled, all three answers held. *)
Example in_flight_view :
  render in_flight = Page sample_quiz None (Some {| disabled := true |})
  /\ isSubmitting in_flight = true
  /\ answers in_flight = {[ 1 := js "a"; 2 := js "b"; 3 := js "c" ]}.
Proof. repeat split; vm_compute; reflexivity. Qed.

(** [toggle] reads back the negation of what was rendered. *)
Lemma hint_visible_toggle q sh :
  hint_visible (toggle q sh) q = negb (hint_visible sh q).
Proof. unfold hint_visible, toggle. rewrite lookup_insert_eq. reflexivity. Qed.

(** C8.  Toggling the hint of a question twice brings its rendered
    visibility back to what it was, and one toggle leaves every other entry
    of [showHints] as it was. *)
Theorem toggleHint_twice_and_frame (q : Z) (st : State) :
  hint_visible (showHints (toggleHint q (toggleHint q st))) q
  = hint_visible (showHints st) q
  /\ forall q', q' <> q ->
       showHints (toggleHint q st) !! q' = showHints st !! q'
       /\ hint_visible (showHints (toggleHint q st)) q'
          = hint_visible (showHints st) q'.
Proof.
  split.
  - simpl. rewrite !hint_visible_toggle. apply negb_involutive.
  - intros q' Hne.
    assert (E : showHints (toggleHint q st) !! q' = showHints st !! q').
    { simpl. unfold toggle. apply lookup_insert_ne. congruence. }
    split; [exact E|]. unfold hint_visible. rewrite E. reflexivity.
Qed.

(** Toggling the hint of question 1 leaves that of question 2 alone. *)
Lemma toggleHint_twice_and_frame_witness :
  2 <> 1
  /\ showHints (toggleHint 1 loaded) !! 2 = showHints loaded !! 2
  /\ hint_visible (showHints (toggleHint 1 loaded)) 2
     = hint_visible (showHints loaded) 2.
Proof.
  split.
  - discriminate.
  - apply (proj2 (toggleHint_twice_and_frame 1 loaded)). discriminate.
Defined.

(** The results summary is on the page exactly for the results the state
    holds. *)
Lemma render_summary st q r submit :
  render st = Page q (Some r) submit -> results st = Some r /\ quiz st = Some q.
Proof.
  unfold render. destruct (loading st); [discriminate|].
  destruct (truthy_opt_string (error st)); [discriminate|].
  destruct (quiz st); [|discriminate].
  intros [= <- -> _]. auto.
Qed.

(** C4, counterexample.  The percentage printed is the one the backend
    reports: for a result of 2 out of 3 reported as 67 per cent, the
    summary reads "2/3 (67.0%)". *)
Lemma renders_two_of_three_fails_for_67 : ~ renders_two_of_three graded_67.
Proof.
  intros H.
  specialize (H sample_quiz
                {| question_results := []; total_score := 2; max_score := 3;
                   percentage := 67 # 1 |}
                None eq_refl eq_refl eq_refl eq_refl).
  vm_compute in H. discriminate.
Qed.

Example graded_67_score_line :
  forall r, results graded_67 = Some r ->
    score_line r = Some (js "Score: 2/3 (67.0%)").
Proof. intros r [= <-]. vm_compute. reflexivity. Qed.

(** C4, amended.  For a quiz of three questions and a result with
    [total_score = 2], [max_score = 3] and a reported percentage [p] with
    [66.65 <= p < 66.75] (as 66.666..., the backend's 2/3 in per cent), the
    summary reads "2/3 (66.7%)": the percentage is the backend's, printed
    with one decimal. *)
Theorem score_line_two_of_three (st : State) (q : Quiz)
    (r : QuizSubmissionResponse) (submit : option SubmitButton) :
  render st = Page q (Some r) submit ->
  length (questions q) = 3%nat ->
  total_score r = 2 -> max_score r = 3 ->
  (6665 # 100 <= percentage r)%Q -> (percentage r < 6675 # 100)%Q ->
  score_line r = Some (js "Score: " ++ js "2/3 (66.7%)").
Proof.
  intros _ _ Ht Hm Hlo Hhi. unfold score_line.
  rewrite JSFacts.Number_toFixed_nonneg;
    [|lra|apply Qlt_trans with (6675 # 100); [exact Hhi | reflexivity]].
  change (inject_Z (10 ^ Z.of_nat 1)) with (10 # 1).
  rewrite (JSFacts.Qfloor_unique _ 667);
    [|change (inject_Z 667) with (667 # 1); lra
     |change (inject_Z (667 + 1)) with (668 # 1); lra].
  rewrite Ht, Hm. vm_compute. reflexivity.
Qed.

(** With the percentage reported as 66.66666666666667. *)
Lemma score_line_two_of_three_witness :
  render graded_two_thirds
  = Page sample_quiz
      (Some {| question_results := []; total_score := 2; max_score := 3;
               percentage := 6666666666666667 # 100000000000000 |})
      None
  /\ score_line
       {| question_results := []; total_score := 2; max_score := 3;
          percentage := 6666666666666667 # 100000000000000 |}
     = Some (js "Score: " ++ js "2/3 (66.7%)").
Proof.
  split.
  - reflexivity.
  - apply (score_line_two_of_three graded_two_thirds sample_quiz _ None);
      [reflexivity | reflexivity | reflexivity | reflexivity
      | vm_compute; discriminate | vm_compute; reflexivity].
Defined.

End QuizViewSpec.

(** ** The proxies *)

Module ProxySpec.
Import Proxy.

Section Facts.

Context {JSON : Type}.
Variable NEXT_PUBLIC_BACKEND_URL : option jsstring.
Variable backend : Request JSON -> Awaited (Response JSON).

Abbreviation GET := (Proxy.GET JSON NEXT_PUBLIC_BACKEND_URL backend).
Abbreviation POST := (Proxy.POST JSON NEXT_PUBLIC_BACKEND_URL backend).
Abbreviation quiz_call := (Proxy.quiz_call JSON NEXT_PUBLIC_BACKEND_URL).
Abbreviation upload_call := (Proxy.upload_call JSON NEXT_PUBLIC_BACKEND_URL).
Abbreviation BACKEND_URL := (Proxy.BACKEND_URL NEXT_PUBLIC_BACKEND_URL).
Abbreviation GET_throws := (Proxy.GET_throws NEXT_PUBLIC_BACKEND_URL backend).
Abbreviation POST_throws := (Proxy.POST_throws NEXT_PUBLIC_BACKEND_URL backend).

Lemma NextResponse_json_carries (p : Payload JSON) (s : Z) :
  carries_body s ->
  NextResponse_json JSON p s = Some {| payload := p; response_status := s |}.
Proof.
  intros [[Hlo Hhi] Hn]. unfold NextResponse_json.
  apply Z.leb_le in Hlo, Hhi. rewrite Hlo, Hhi, Hn. reflexivity.
Qed.

Lemma NextResponse_json_refused (p : Payload JSON) (s : Z) :
  ~ carries_body s -> NextResponse_json JSON p s = None.
Proof.
  intros H. unfold NextResponse_json.
  destruct ((200 <=? s) && (s <=? 599) && negb (null_body_status s)) eqn:E;
    [|reflexivity].
  exfalso. apply H. apply andb_true_iff in E as [E En].
  apply andb_true_iff in E as [Hlo Hhi]. apply Z.leb_le in Hlo, Hhi.
  apply negb_true_iff in En. split; [lia | exact En].
Qed.

Lemma relay_backend_error r t :
  ok r = false -> text r = Fulfilled t -> carries_body (status r) ->
  relay JSON r = ([], Some (backend_error r)).
Proof.
  intros Hok Ht Hs. unfold relay. rewrite Hok, Ht. simpl.
  rewrite NextResponse_json_carries by exact Hs. reflexivity.
Qed.

Lemma relay_data r data :
  ok r = true -> json r = Fulfilled data ->
  relay JSON r = ([], Some {| payload := Data data; response_status := 200 |}).
Proof. intros Hok Hj. unfold relay. rewrite Hok, Hj. reflexivity. Qed.

Lemma relay_no_call r : (relay JSON r).1 = [].
Proof.
  unfold relay. destruct (ok r); simpl.
  - destruct (json r); reflexivity.
  - destruct (text r); reflexivity.
Qed.

Lemma relay_throws_None r : relay_throws r -> relay JSON r = ([], None).
Proof.
  intros [e Hok H|e Hok H|Hok H]; unfold relay; rewrite Hok; simpl.
  - rewrite H. reflexivity.
  - rewrite H. reflexivity.
  - destruct (text r); simpl; [|reflexivity].
    rewrite NextResponse_json_refused by exact H. reflexivity.
Qed.

(** The fetch proxy makes its one call whatever the backend does. *)
Lemma GET_calls request quizId :
  (GET request quizId).1 = [quiz_call request quizId].
Proof.
  unfold Proxy.GET, try_catch, bind, fetch.
  destruct (backend (quiz_call request quizId)) as [r|e]; [|reflexivity].
  pose proof (relay_no_call r) as H.
  destruct (relay JSON r) as [calls [resp|]]; simpl in *; subst; reflexivity.
Qed.

Lemma GET_after_fetch request quizId r :
  backend (quiz_call request quizId) = Fulfilled r ->
  (GET request quizId).2
  = match (relay JSON r).2 with
    | Some response => Some response
    | None => Some internal_server_error
    end.
Proof.
  intros H. unfold Proxy.GET, try_catch, bind, fetch. rewrite H.
  destruct (relay JSON r) as [calls [resp|]]; reflexivity.
Qed.

Lemma POST_calls request body :
  request_json request = Fulfilled body ->
  (POST request).1 = [upload_call request body].
Proof.
  intros Hb. unfold Proxy.POST, try_catch, bind, fetch, await. rewrite Hb.
  destruct (backend (upload_call request body)) as [r|e]; [|reflexivity].
  pose proof (relay_no_call r) as H.
  destruct (relay JSON r) as [calls [resp|]]; simpl in *; subst; reflexivity.
Qed.

Lemma POST_no_call request e :
  request_json request = Rejected e -> (POST request).1 = [].
Proof.
  intros Hb. unfold Proxy.POST, try_catch, bind, await. rewrite Hb. reflexivity.
Qed.

Lemma POST_after_fetch request body r :
  request_json request = Fulfilled body ->
  backend (upload_call request body) = Fulfilled r ->
  (POST request).2
  = match (relay JSON r).2 with
    | Some response => Some response
    | None => Some internal_server_error
    end.
Proof.
  intros Hb H. unfold Proxy.POST, try_catch, bind, fetch, await. rewrite Hb, H.
  destruct (relay JSON r) as [calls [resp|]]; reflexivity.
Qed.

Lemma GET_throws_500 request quizId :
  GET_throws request quizId -> (GET request quizId).2 = Some internal_server_error.
Proof.
  intros [e H|r H Hr].
  - unfold Proxy.GET, try_catch, bind, fetch. rewrite H. reflexivity.
  - rewrite (GET_after_fetch _ _ _ H), (relay_throws_None _ Hr). reflexivity.
Qed.

Lemma POST_throws_500 request :
  POST_throws request -> (POST request).2 = Some internal_server_error.
Proof.
  intros [e Hb|body e Hb H|body r Hb H Hr].
  - unfold Proxy.POST, try_catch, bind, await. rewrite Hb. reflexivity.
  - unfold Proxy.POST, try_catch, bind, fetch, await. rewrite Hb, H. reflexivity.
  - rewrite (POST_after_fetch _ _ _ Hb H), (relay_throws_None _ Hr). reflexivity.
Qed.

(** Either proxy always answers: the handler itself never throws. *)
Lemma proxies_always_respond request quizId :
  is_Some (GET request quizId).2 /\ is_Some (POST request).2.
Proof.
  split.
  - unfold Proxy.GET, try_catch, bind, fetch.
    destruct (backend (quiz_call request quizId)) as [r|e]; [|eexists; reflexivity].
    destruct (relay JSON r) as [calls [resp|]]; eexists; reflexivity.
  - unfold Proxy.POST, try_catch, bind, fetch, await.
    destruct (request_json request) as [body|e]; [|eexists; reflexivity].
    destruct (backend (upload_call request body)) as [r|e]; [|eexists; reflexivity].
    destruct (relay JSON r) as [calls [resp|]]; eexists; reflexivity.
Qed.

(** C3, amended.  When the backend answers with a status outside 200..299,
    its body can be read and a JSON response can carry that status (it is in
    300..599 and is not 304), the proxy answers [{ error: "Backend error: "
    + statusText }] with the backend's status.  When anything inside the
    [try] block throws (reading the request's JSON, the [fetch], reading or
    parsing the backend's body, building the response), the proxy answers
    [{ error: "Internal server error" }] with status 500. *)
Theorem proxy_error_responses (request : NextRequest JSON) (quizId : jsstring) :
  (forall r t,
     backend (quiz_call request quizId) = Fulfilled r ->
     ok r = false -> text r = Fulfilled t -> carries_body (status r) ->
     (GET request quizId).2 = Some (backend_error r))
  /\ (forall body r t,
        request_json request = Fulfilled body ->
        backend (upload_call request body) = Fulfilled r ->
        ok r = false -> text r = Fulfilled t -> carries_body (status r) ->
        (POST request).2 = Some (backend_error r))
  /\ (GET_throws request quizId ->
      (GET request quizId).2 = Some internal_server_error)
  /\ (POST_throws request -> (POST request).2 = Some internal_server_error).
Proof.
  repeat split.
  - intros r t H Hok Ht Hs.
    rewrite (GET_after_fetch _ _ _ H), (relay_backend_error _ _ Hok Ht Hs).
    reflexivity.
  - intros body r t Hb H Hok Ht Hs.
    rewrite (POST_after_fetch _ _ _ Hb H), (relay_backend_error _ _ Hok Ht Hs).
    reflexivity.
  - apply GET_throws_500.
  - apply POST_throws_500.
Qed.

(** The header value the proxies send: the incoming one, or the empty
    string when there is none. *)
Lemma or_string_empty (a : option jsstring) :
  or_string a (js "") = default [] a.
Proof. destruct a as [[|c s]|]; reflexivity. Qed.

(** C7, amended.  The fetch proxy makes exactly one backend call for every
    request: a GET of [{backend}/pdf-quizzes/quiz/{id}].  The upload proxy
    makes exactly one for every request whose body parses as JSON, a POST
    to [{backend}/pdf-quizzes/upload] whose body is [JSON.stringify] of
    the value [request.json()] parsed ([body] below), and none when the
    body does not parse.  Both calls carry the incoming Authorization
    value.  On a backend success whose body parses as JSON, the proxy
    answers with status 200 and the value [response.json()] parsed
    ([data] below), written out again by [NextResponse.json].  In both
    directions it is the parsed value that goes on, not the text that
    came in. *)
Theorem proxies_forward_once (request : NextRequest JSON) (quizId : jsstring) :
  (GET request quizId).1
  = [{| url := BACKEND_URL ++ js "/pdf-quizzes/quiz/" ++ quizId;
        method := GET_;
        headers :=
          [(js "Authorization", default [] (headers_get_Authorization request))];
        body := None |}]
  /\ (forall body,
        request_json request = Fulfilled body ->
        (POST request).1
        = [{| url := BACKEND_URL ++ js "/pdf-quizzes/upload";
              method := POST_;
              headers :=
                [(js "Content-Type", js "application/json");
                 (js "Authorization",
                  default [] (headers_get_Authorization request))];
              body := Some body |}])
  /\ (forall e, request_json request = Rejected e -> (POST request).1 = [])
  /\ (forall r data,
        backend (quiz_call request quizId) = Fulfilled r ->
        ok r = true -> json r = Fulfilled data ->
        (GET request quizId).2
        = Some {| payload := Data data; response_status := 200 |})
  /\ (forall body r data,
        request_json request = Fulfilled body ->
        backend (upload_call request body) = Fulfilled r ->
        ok r = true -> json r = Fulfilled data ->
        (POST request).2
        = Some {| payload := Data data; response_status := 200 |}).
Proof.
  repeat split.
  - rewrite GET_calls. unfold Proxy.quiz_call. rewrite or_string_empty.
    reflexivity.
  - intros body Hb. rewrite (POST_calls _ _ Hb). unfold Proxy.upload_call.
    rewrite or_string_empty. reflexivity.
  - apply POST_no_call.
  - intros r data H Hok Hj.
    rewrite (GET_after_fetch _ _ _ H), (relay_data _ _ Hok Hj). reflexivity.
  - intros body r data Hb H Hok Hj.
    rewrite (POST_after_fetch _ _ _ Hb H), (relay_data _ _ Hok Hj). reflexivity.
Qed.

(** C9, amended.  For a request without an Authorization header, the one
    call of the fetch proxy carries [Authorization] with the empty string
    as its value; the upload proxy makes one call whenever the request's
    body parses as JSON, and that call carries [Authorization] with the
    empty string too; when the body does not parse the upload proxy makes
    no call, so it sends no header at all. *)
Theorem missing_authorization_sent_empty
    (request : NextRequest JSON) (quizId : jsstring) :
  headers_get_Authorization request = None ->
  (exists call,
     (GET request quizId).1 = [call]
     /\ headers call = [(js "Authorization", js "")])
  /\ (forall body,
        request_json request = Fulfilled body ->
        exists call,
          (POST request).1 = [call]
          /\ headers call
             = [(js "Content-Type", js "application/json");
                (js "Authorization", js "")])
  /\ (forall e, request_json request = Rejected e -> (POST request).1 = []).
Proof.
  intros Hnone. repeat split.
  - exists (quiz_call request quizId). split; [apply GET_calls|].
    simpl. rewrite Hnone. reflexivity.
  - intros body Hb. exists (upload_call request body).
    split; [apply POST_calls, Hb|]. simpl. rewrite Hnone. reflexivity.
  - apply POST_no_call.
Qed.

End Facts.

Import ProxyScenarios.

(** C3, counterexample.  The backend answers 404 and its body cannot be
    read: [await response.text()] throws inside the [try], and the proxy
    answers 500 "Internal server error". *)
Lemma backend_status_lost_when_body_unreadable :
  ~ backend_status_preserved not_found_unreadable bearer_request (js "12").
Proof.
  intros H. specialize (H _ eq_refl eq_refl). vm_compute in H. discriminate.
Qed.

Example unreadable_404_gives_500 :
  (Proxy.GET Z None not_found_unreadable bearer_request (js "12")).2
  = Some internal_server_error.
Proof. reflexivity. Qed.

(** A 304 from the backend cannot be relayed either: a response with a
    body may not have that status. *)
Example not_modified_gives_500 :
  (Proxy.GET Z None not_modified bearer_request (js "12")).2
  = Some internal_server_error.
Proof. reflexivity. Qed.

(** A 404 with a readable body is relayed as a 404; a 404 whose body
    cannot be read, and a request whose body is not JSON, end in a 500. *)
Lemma proxy_error_responses_witness :
  not_found (Proxy.quiz_call Z None bearer_request (js "12"))
  = Fulfilled {| status := 404; statusText := js "Not Found";
                 text := Fulfilled (js "no such quiz");
                 json := Rejected (ThrownError (js "Unexpected token")) |}
  /\ (Proxy.GET Z None not_found bearer_request (js "12")).2
     = Some {| payload := ErrorObject (js "Backend error: Not Found");
               response_status := 404 |}
  /\ GET_throws None not_found_unreadable bearer_request (js "12")
  /\ (Proxy.GET Z None not_found_unreadable bearer_request (js "12")).2
     = Some internal_server_error
  /\ POST_throws None not_found malformed_request
  /\ (Proxy.POST Z None not_found malformed_request).2
     = Some internal_server_error.
Proof.
  pose proof (proxy_error_responses None not_found bearer_request (js "12"))
    as (Hget & _).
  pose proof (proxy_error_responses None not_found_unreadable bearer_request
                (js "12")) as (_ & _ & Hthrow & _).
  pose proof (proxy_error_responses None not_found malformed_request (js "12"))
    as (_ & _ & _ & Hpost).
  assert (T1 : GET_throws None not_found_unreadable bearer_request (js "12")).
  { eapply GET_relay_throws; [reflexivity|].
    eapply text_rejects; reflexivity. }
  assert (T2 : POST_throws None not_found malformed_request).
  { eapply POST_request_json_rejects. reflexivity. }
  split; [reflexivity|]. split.
  - apply (Hget _ (js "no such quiz") eq_refl eq_refl eq_refl).
    unfold carries_body. simpl. split; [lia | reflexivity].
  - split; [exact T1|]. split; [exact (Hthrow T1)|].
    split; [exact T2 | exact (Hpost T2)].
Defined.

(** What parsing and writing out again does to an integer: it comes back
    as it was when it is below [2^53] in absolute value (and written
    without a sign of its own for zero). *)
Lemma small_integer_written_back (n : Z) :
  Z.abs n < 2 ^ 53 ->
  JSONText.nearest_Number n = Some n
  /\ JSONText.JSON_stringify_integer n = Some (Number_toString n).
Proof.
  intros H. unfold JSONText.nearest_Number, JSONText.JSON_stringify_integer.
  apply Z.ltb_lt in H as H'. rewrite H'.
  assert (H21 : Z.abs n < 10 ^ 21).
  { eapply Z.lt_trans; [exact H | reflexivity]. }
  apply Z.ltb_lt in H21. rewrite H21. auto.
Qed.

Example big_integer_rounded :
  JSONText.JSON_parse_integer (js "9007199254740993") = Some 9007199254740992
  /\ JSONText.JSON_stringify_integer 9007199254740992
     = Some (js "9007199254740992").
Proof. split; vm_compute; reflexivity. Qed.

(** C7, counterexample.  For a request whose body is not JSON,
    [await request.json()] throws before the [fetch]: no backend call.
    And a body that is JSON is not posted unchanged: the body
    [9007199254740993] is parsed to the Number 9007199254740992 and posted
    as the text [9007199254740992]. *)
Lemma request_not_forwarded_as_stated :
  ~ exactly_one_call found malformed_request
  /\ ~ forwards_text_unchanged found (js "9007199254740993").
Proof.
  split.
  - intros [call H]. vm_compute in H. discriminate.
  - intros H.
    destruct (H 9007199254740992) as (call & posted & Hc & Hb & Ht).
    + vm_compute. reflexivity.
    + vm_compute in Hc. injection Hc as <-. simpl in Hb.
      injection Hb as <-. vm_compute in Ht. discriminate.
Qed.

(** A request with a JSON body is forwarded once and the backend's JSON
    comes back; a request whose body is not JSON is not forwarded. *)
Lemma proxies_forward_once_witness :
  request_json bearer_request = Fulfilled 7
  /\ (Proxy.POST Z None found bearer_request).1
     = [{| url := js "http://localhost:8000/pdf-quizzes/upload";
           method := POST_;
           headers :=
             [(js "Content-Type", js "application/json");
              (js "Authorization", js "Bearer 1")];
           body := Some 7 |}]
  /\ (Proxy.POST Z None found bearer_request).2
     = Some {| payload := Data 42; response_status := 200 |}
  /\ (Proxy.POST Z None found malformed_request).1 = [].
Proof.
  pose proof (proxies_forward_once None found bearer_request (js "12"))
    as (_ & Hcall & _ & _ & Hdata).
  pose proof (proxies_forward_once None found malformed_request (js "12"))
    as (_ & _ & Hnone & _).
  split; [reflexivity|]. split; [exact (Hcall 7 eq_refl)|].
  split; [exact (Hdata 7 _ 42 eq_refl eq_refl eq_refl eq_refl)|].
  exact (Hnone _ eq_refl).
Defined.

(** C9, counterexample.  A request without the header whose body is not
    JSON: the upload proxy makes no backend call, so no Authorization
    header is sent. *)
Lemma no_authorization_sent_for_malformed_body :
  ~ upload_sends_empty_authorization found anonymous_malformed_request.
Proof.
  intros H. destruct (H eq_refl) as (call & Hin & _).
  vm_compute in Hin. inversion Hin.
Qed.

(** A request without the header and with a JSON body at both proxies,
    and one whose body is not JSON at the upload proxy. *)
Lemma missing_authorization_sent_empty_witness :
  headers_get_Authorization anonymous_request = None
  /\ (exists call,
        (Proxy.GET Z None found anonymous_request (js "12")).1 = [call]
        /\ headers call = [(js "Authorization", js "")])
  /\ (exists call,
        (Proxy.POST Z None found anonymous_request).1 = [call]
        /\ headers call
           = [(js "Content-Type", js "application/json");
              (js "Authorization", js "")])
  /\ headers_get_Authorization anonymous_malformed_request = None
  /\ (Proxy.POST Z None found anonymous_malformed_request).1 = [].
Proof.
  destruct (missing_authorization_sent_empty None found anonymous_request
              (js "12") eq_refl) as (G & P & _).
  destruct (missing_authorization_sent_empty None found
              anonymous_malformed_request (js "12") eq_refl) as (_ & _ & N).
  split; [reflexivity|]. split; [exact G|].
  split; [exact (P 7 eq_refl)|]. split; [reflexivity|].
  exact (N _ eq_refl).
Defined.

End ProxySpec.

(** ** The upload form *)

Module UploadSpec.
Import PDFUpload UploadScenarios.

(** RFC 4648's test vectors. *)
Example base64_vectors :
  base64_encode (list_byte_of_string "") = js ""
  /\ base64_encode (list_byte_of_string "f") = js "Zg=="
  /\ base64_encode (list_byte_of_string "fo") = js "Zm8="
  /\ base64_encode (list_byte_of_string "foo") = js "Zm9v"
  /\ base64_encode (list_byte_of_string "foob") = js "Zm9vYg=="
  /\ base64_encode (list_byte_of_string "fooba") = js "Zm9vYmE="
  /\ base64_encode (list_byte_of_string "foobar") = js "Zm9vYmFy".
Proof. repeat split. Qed.

Example chosen_title : title chosen = js "notes" /\ file chosen = Some notes_pdf.
Proof. split; reflexivity. Qed.

(** A final [.pdf] is dropped from the title. *)
Lemma replace_pdf_suffix_pdf (base : jsstring) :
  replace_pdf_suffix (base ++ js ".pdf") = base.
Proof.
  unfold replace_pdf_suffix.
  replace (length (base ++ js ".pdf") - 4)%nat with (length base)
    by (rewrite length_app; simpl; lia).
  rewrite drop_app_length, take_app_length. reflexivity.
Qed.

(** Induction on a list three elements at a time, as [base64_encode]
    recurses. *)
Lemma list_ind3 {A} (P : list A -> Prop) :
  P [] -> (forall a, P [a]) -> (forall a b, P [a; b]) ->
  (forall a b c l, P l -> P (a :: b :: c :: l)) ->
  forall l, P l.
Proof.
  intros H0 H1 H2 H3 l.
  enough (H : P l /\ (forall a, P (a :: l)) /\ (forall a b, P (a :: b :: l)))
    by apply H.
  induction l as [|x l (IH0 & IH1 & IH2)].
  - auto.
  - split; [apply IH1|]. split; [intros a; apply IH2|].
    intros a b. apply H3, IH0.
Qed.

Lemma base64_alphabet_no_comma :
  Forall (fun c => c <> 44%N) base64_alphabet.
Proof. repeat (constructor; [discriminate|]). constructor. Qed.

Lemma base64_digit_no_comma (i : N) : base64_digit i <> 44%N.
Proof.
  unfold base64_digit.
  destruct (nth_in_or_default (N.to_nat i) base64_alphabet 65%N) as [H| ->];
    [|discriminate].
  exact (proj1 (List.Forall_forall _ _) base64_alphabet_no_comma _ H).
Qed.

(** Base64 text holds no comma. *)
Lemma base64_encode_no_comma (bytes : list Byte.byte) :
  Forall (fun c => c <> 44%N) (base64_encode bytes).
Proof.
  induction bytes as [|a|a b|a b c rest IH] using list_ind3.
  - constructor.
  - simpl. repeat (constructor; [apply base64_digit_no_comma || discriminate|]).
    constructor.
  - simpl. repeat (constructor; [apply base64_digit_no_comma || discriminate|]).
    constructor.
  - change (base64_encode (a :: b :: c :: rest))
      with (let n := (Byte.to_N a * 65536 + Byte.to_N b * 256 + Byte.to_N c)%N in
            [base64_digit (n / 262144); base64_digit ((n / 4096) mod 64);
             base64_digit ((n / 64) mod 64); base64_digit (n mod 64)]
            ++ base64_encode rest).
    cbv zeta. apply Forall_app. split; [|exact IH].
    repeat (constructor; [apply base64_digit_no_comma|]). constructor.
Qed.

(** For a PDF, [result.split(",")[1]] is the Base64 text of the bytes. *)
Lemma fileToBase64_pdf (f : File) :
  type f = js "application/pdf" ->
  fileToBase64 onload f = Fulfilled (Some (base64_encode (content f))).
Proof.
  intros Ht. unfold fileToBase64, readAsDataURL. rewrite Ht.
  change (js "data:" ++ (if truthy_string (js "application/pdf")
                         then js "application/pdf"
                         else js "application/octet-stream")
          ++ js ";base64," ++ base64_encode (content f))
    with (js "data:application/pdf;base64" ++ 44%N :: base64_encode (content f)).
  rewrite JSFacts.split_app
    by (repeat (constructor; [discriminate|]); constructor).
  rewrite JSFacts.split_no_sep by apply base64_encode_no_comma.
  reflexivity.
Qed.

(** C5.  Choosing a file that is not a PDF leaves the file and the title
    as they were and sets an upload status of type error; choosing a PDF
    stores the file and replaces the title (by the file's name without a
    final [.pdf]). *)
Theorem handleFileChange_validates (st : State) (f : File) :
  (type f <> js "application/pdf" ->
   file (handleFileChange (Some f) st) = file st
   /\ title (handleFileChange (Some f) st) = title st
   /\ status_type (uploadStatus (handleFileChange (Some f) st)) = Some error)
  /\ (type f = js "application/pdf" ->
      file (handleFileChange (Some f) st) = Some f
      /\ title (handleFileChange (Some f) st) = replace_pdf_suffix (name f)).
Proof.
  unfold handleFileChange, string_eqb. split; intros H.
  - rewrite bool_decide_eq_false_2 by exact H. auto.
  - rewrite bool_decide_eq_true_2 by exact H. auto.
Qed.

(** A text file offered after the PDF was chosen, and the PDF itself. *)
Lemma handleFileChange_validates_witness :
  type notes_txt <> js "application/pdf"
  /\ (file (handleFileChange (Some notes_txt) chosen) = file chosen
      /\ title (handleFileChange (Some notes_txt) chosen) = title chosen
      /\ status_type (uploadStatus (handleFileChange (Some notes_txt) chosen))
         = Some error)
  /\ type notes_pdf = js "application/pdf"
  /\ (file (handleFileChange (Some notes_pdf) initial) = Some notes_pdf
      /\ title (handleFileChange (Some notes_pdf) initial)
         = replace_pdf_suffix (name notes_pdf)).
Proof.
  assert (H : type notes_txt <> js "application/pdf") by (vm_compute; discriminate).
  split; [exact H|].
  split; [exact (proj1 (handleFileChange_validates chosen notes_txt) H)|].
  split; [reflexivity|].
  exact (proj2 (handleFileChange_validates initial notes_pdf) eq_refl).
Defined.

(** C6, counterexample.  When the [FileReader] fails, [fileToBase64]
    rejects and [handleSubmit] goes to its [catch] before the [fetch]: no
    request is issued. *)
Lemma no_request_when_file_unreadable : ~ issues_one_request unreadable_file chosen.
Proof.
  intros H. destruct (H notes_pdf eq_refl eq_refl) as [request Hr].
  - vm_compute. discriminate.
  - vm_compute in Hr. discriminate.
Qed.

(** C6, amended.  With a PDF chosen and a title whose trimmed value is not
    empty, a submission during which the file is read issues exactly one
    request: a POST to the upload endpoint whose JSON body has the trimmed
    title as [title] and the Base64 text of the file as [file_content]. *)
Theorem upload_issues_one_request (env : Env) (st : State) (f : File) :
  file st = Some f -> type f = js "application/pdf" -> trim (title st) <> [] ->
  reader env = onload ->
  requests (handleSubmit env st)
  = [{| url := js "/api/pdf-quizzes/upload";
        method := POST_;
        headers :=
          [(js "Content-Type", js "application/json");
           (js "Authorization", js "Bearer 1")];
        body := Some {| body_title := trim (title st);
                        file_content := Some (base64_encode (content f)) |} |}].
Proof.
  intros Hf Ht Htitle Hr. unfold handleSubmit. rewrite Hf.
  apply JSFacts.truthy_string_true in Htitle. rewrite Htitle, Hr.
  rewrite (fileToBase64_pdf f Ht).
  destruct (server env _) as [response|e]; [|reflexivity].
  destruct (ok response); simpl; [|reflexivity].
  destruct (json response); reflexivity.
Qed.

(** The one request is issued even when the server then answers 500. *)
Lemma upload_issues_one_request_witness :
  file chosen = Some notes_pdf
  /\ type notes_pdf = js "application/pdf"
  /\ trim (title chosen) <> []
  /\ reader server_down = onload
  /\ requests (handleSubmit server_down chosen)
     = [{| url := js "/api/pdf-quizzes/upload";
           method := POST_;
           headers :=
             [(js "Content-Type", js "application/json");
              (js "Authorization", js "Bearer 1")];
           body := Some {| body_title := js "notes";
                           file_content := Some (js "Zm9vYmFy") |} |}].
Proof.
  assert (H : trim (title chosen) <> []) by (vm_compute; discriminate).
  repeat (split; [first [reflexivity | exact H]|]).
  exact (upload_issues_one_request server_down chosen notes_pdf
           eq_refl eq_refl H eq_refl).
Defined.

(** The success path of [handleSubmit]. *)
Lemma handleSubmit_success (env : Env) (st : State) (result : UploadResult) :
  upload_succeeds env st result ->
  onQuizGenerated (handleSubmit env st)
  = [(result_id result, result_title result)]
  /\ file (after (handleSubmit env st)) = None
  /\ title (after (handleSubmit env st)) = js ""
  /\ uploadStatus (after (handleSubmit env st))
     = {| status_type := Some success;
          status_message := result_message result |}.
Proof.
  intros (f & base64 & response & Hf & Ht & Hb & Hs & Hok & Hj).
  unfold handleSubmit. apply JSFacts.truthy_string_true in Ht.
  rewrite Hf, Ht, Hb, Hs, Hok, Hj. auto.
Qed.

(** Every other path of [handleSubmit] calls nothing, keeps the file and
    the title, and shows an error. *)
Lemma handleSubmit_failure (env : Env) (st : State) :
  (~ exists result, upload_succeeds env st result) ->
  onQuizGenerated (handleSubmit env st) = []
  /\ file (after (handleSubmit env st)) = file st
  /\ title (after (handleSubmit env st)) = title st
  /\ status_type (uploadStatus (after (handleSubmit env st))) = Some error.
Proof.
  intros Hno. unfold handleSubmit.
  destruct (file st) as [f|] eqn:Hf; [|auto].
  destruct (truthy_string (trim (title st))) eqn:Ht; [|auto].
  destruct (fileToBase64 (reader env) f) as [base64|e] eqn:Hb; [|auto].
  destruct (server env (upload_request st base64)) as [response|e] eqn:Hs;
    [|auto].
  destruct (ok response) eqn:Hok; simpl; [|auto].
  destruct (json response) as [result|e] eqn:Hj; [|auto].
  exfalso. apply Hno. exists result, f, base64, response.
  apply JSFacts.truthy_string_true in Ht. auto 10.
Qed.

(** C10.  A successful upload calls [onQuizGenerated] with the new quiz's
    id and title and leaves the form with [file = null] and [title = ""];
    an upload that does not succeed calls nothing and leaves the file and
    the title as they were. *)
Theorem form_reset_only_on_success (env : Env) (st : State) :
  (forall result,
     upload_succeeds env st result ->
     onQuizGenerated (handleSubmit env st)
     = [(result_id result, result_title result)]
     /\ file (after (handleSubmit env st)) = None
     /\ title (after (handleSubmit env st)) = js "")
  /\ ((~ exists result, upload_succeeds env st result) ->
      onQuizGenerated (handleSubmit env st) = []
      /\ file (after (handleSubmit env st)) = file st
      /\ title (after (handleSubmit env st)) = title st).
Proof.
  split.
  - intros result H. destruct (handleSubmit_success env st result H) as (? & ? & ? & _).
    auto.
  - intros H. destruct (handleSubmit_failure env st H) as (? & ? & ? & _). auto.
Qed.

(** The same form submitted to a server that answers 200 and to one that
    answers 500. *)
Lemma form_reset_only_on_success_witness :
  upload_succeeds all_well chosen created
  /\ (onQuizGenerated (handleSubmit all_well chosen) = [(5, js "notes")]
      /\ file (after (handleSubmit all_well chosen)) = None
      /\ title (after (handleSubmit all_well chosen)) = js "")
  /\ (~ exists result, upload_succeeds server_down chosen result)
  /\ (onQuizGenerated (handleSubmit server_down chosen) = []
      /\ file (after (handleSubmit server_down chosen)) = Some notes_pdf
      /\ title (after (handleSubmit server_down chosen)) = js "notes").
Proof.
  assert (S : upload_succeeds all_well chosen created).
  { exists notes_pdf, (Some (js "Zm9vYmFy")), 
      {| status := 200; statusText := js "OK";
         text := Fulfilled (js ""); json := Fulfilled created |}.
    repeat split. vm_compute. discriminate. }
  assert (F : ~ exists result, upload_succeeds server_down chosen result).
  { intros (result & f & base64 & response & _ & _ & _ & Hs & Hok & _).
    simpl in Hs. injection Hs as <-. discriminate Hok. }
  split; [exact S|].
  split; [exact (proj1 (form_reset_only_on_success all_well chosen) created S)|].
  split; [exact F|].
  exact (proj2 (form_reset_only_on_success server_down chosen) F).
Defined.

End UploadSpec.

(** ** The page *)

Module PageSpec.
Import PDFQuizPage.

(** Uploading to Viewing: after a successful upload the page shows the quiz
    view of the quiz the backend created. *)
Lemma upload_success_shows_quiz env st result page :
  PDFUpload.upload_succeeds env st result ->
  render (after_upload (PDFUpload.handleSubmit env st) page)
  = ShowQuizView (PDFUpload.result_id result).
Proof.
  intros H. unfold after_upload.
  destruct (UploadSpec.handleSubmit_success env st result H) as (-> & _).
  reflexivity.
Qed.

(** An upload that fails leaves the page where it was. *)
Lemma upload_failure_keeps_page env st page :
  (~ exists result, PDFUpload.upload_succeeds env st result) ->
  after_upload (PDFUpload.handleSubmit env st) page = page.
Proof.
  intros H. unfold after_upload.
  destruct (UploadSpec.handleSubmit_failure env st H) as (-> & _).
  reflexivity.
Qed.

(** Viewing to Uploading: going back shows the upload form. *)
Lemma back_shows_upload page : render (handleBackToUpload page) = ShowUpload.
Proof. reflexivity. Qed.

End PageSpec.

(** * Further properties of the code *)

(** ** The proxies: every response has one of three shapes *)

Module ProxyBehaviour.
Import Proxy.

Section Shapes.

Context {JSON : Type}.
Variable NEXT_PUBLIC_BACKEND_URL : option jsstring.
Variable backend : Request JSON -> Awaited (Response JSON).

Abbreviation GET := (Proxy.GET JSON NEXT_PUBLIC_BACKEND_URL backend).
Abbreviation POST := (Proxy.POST JSON NEXT_PUBLIC_BACKEND_URL backend).
Abbreviation quiz_call := (Proxy.quiz_call JSON NEXT_PUBLIC_BACKEND_URL).
Abbreviation upload_call := (Proxy.upload_call JSON NEXT_PUBLIC_BACKEND_URL).

(** The part after the [fetch] relays the data of a 2xx answer with status
    200, answers a non-2xx one with the backend's status and status text,
    or throws; it makes no call. *)
Lemma relay_cases (r : Response JSON) :
  (exists data,
     ok r = true /\ json r = Fulfilled data
     /\ relay JSON r
        = ([], Some {| payload := Data data; response_status := 200 |}))
  \/ (ok r = false /\ relay JSON r = ([], Some (backend_error r)))
  \/ relay JSON r = ([], None).
Proof.
  unfold relay. destruct (ok r) eqn:Hok; simpl.
  - destruct (json r) as [data|e] eqn:Hj; simpl.
    + left. exists data. auto.
    + right. right. reflexivity.
  - destruct (text r) as [t|e]; simpl; [|right; right; reflexivity].
    unfold NextResponse_json.
    destruct ((200 <=? status r) && (status r <=? 599)
              && negb (null_body_status (status r))).
    + right. left. auto.
    + right. right. reflexivity.
Qed.

(** X1.  Whatever the request and whatever the backend does, each proxy
    answers, and its answer is the backend's JSON with status 200 (the
    backend answered 2xx with a JSON body), or [{ error: "Backend error:
    ..." }] with the backend's non-2xx status, or [{ error: "Internal
    server error" }] with status 500.  In particular a 2xx status other
    than 200 is not passed on, and nothing of a non-2xx answer's body
    is. *)
Theorem proxy_response_shapes (request : NextRequest JSON) (quizId : jsstring) :
  (exists response,
     (GET request quizId).2 = Some response
     /\ ((exists r data,
            backend (quiz_call request quizId) = Fulfilled r
            /\ ok r = true /\ json r = Fulfilled data
            /\ response = {| payload := Data data; response_status := 200 |})
         \/ (exists r,
               backend (quiz_call request quizId) = Fulfilled r
               /\ ok r = false /\ response = backend_error r)
         \/ response = internal_server_error))
  /\ (exists response,
        (POST request).2 = Some response
        /\ ((exists body r data,
               request_json request = Fulfilled body
               /\ backend (upload_call request body) = Fulfilled r
               /\ ok r = true /\ json r = Fulfilled data
               /\ response = {| payload := Data data; response_status := 200 |})
            \/ (exists body r,
                  request_json request = Fulfilled body
                  /\ backend (upload_call request body) = Fulfilled r
                  /\ ok r = false /\ response = backend_error r)
            \/ response = internal_server_error)).
Proof.
  split.
  - unfold Proxy.GET, try_catch, bind, fetch.
    destruct (backend (quiz_call request quizId)) as [r|e] eqn:Hb.
    + destruct (relay_cases r) as [(data & Hok & Hj & ->)|[(Hok & ->)| ->]].
      * eexists. split; [reflexivity|]. left. exists r, data. auto.
      * eexists. split; [reflexivity|]. right. left. exists r. auto.
      * eexists. split; [reflexivity|]. right. right. reflexivity.
    + eexists. split; [reflexivity|]. right. right. reflexivity.
  - unfold Proxy.POST, try_catch, bind, fetch, await.
    destruct (request_json request) as [body|e] eqn:Hr.
    + destruct (backend (upload_call request body)) as [r|e] eqn:Hb.
      * destruct (relay_cases r) as [(data & Hok & Hj & ->)|[(Hok & ->)| ->]].
        -- eexists. split; [reflexivity|]. left. exists body, r, data. auto.
        -- eexists. split; [reflexivity|]. right. left. exists body, r. auto.
        -- eexists. split; [reflexivity|]. right. right. reflexivity.
      * eexists. split; [reflexivity|]. right. right. reflexivity.
    + eexists. split; [reflexivity|]. right. right. reflexivity.
Qed.

End Shapes.

End ProxyBehaviour.

(** ** The upload form: titles, validation, requests *)

Module UploadBehaviour.
Import PDFUpload UploadEvents UploadScenarios.

Lemma eqb_ignore_case_true c letter :
  eqb_ignore_case c letter = true <-> c = letter \/ c = (letter - 32)%N.
Proof.
  unfold eqb_ignore_case. rewrite orb_true_iff, !N.eqb_eq. reflexivity.
Qed.

(** X2.  The title made from a file name: the name without its ending when the
    ending is [.pdf] in any mix of cases, and the whole name otherwise (one
    ending is dropped, never two; a name that is only [.pdf] gives the empty
    title). *)
Theorem replace_pdf_suffix_spec (fileName : jsstring) :
  (forall base ext,
     fileName = base ++ ext -> pdf_extension ext ->
     replace_pdf_suffix fileName = base)
  /\ ((~ exists base ext, fileName = base ++ ext /\ pdf_extension ext) ->
      replace_pdf_suffix fileName = fileName).
Proof.
  split.
  - intros base ext -> (p & d & f & -> & Hp & Hd & Hf).
    unfold replace_pdf_suffix.
    replace (length (base ++ [46%N; p; d; f]) - 4)%nat with (length base)
      by (rewrite length_app; simpl; lia).
    rewrite drop_app_length, take_app_length.
    assert (Ep : eqb_ignore_case p 112 = true) by (apply eqb_ignore_case_true; exact Hp).
    assert (Ed : eqb_ignore_case d 100 = true) by (apply eqb_ignore_case_true; exact Hd).
    assert (Ef : eqb_ignore_case f 102 = true) by (apply eqb_ignore_case_true; exact Hf).
    rewrite Ep, Ed, Ef. reflexivity.
  - intros Hno. unfold replace_pdf_suffix.
    destruct (drop (length fileName - 4) fileName)
      as [|dot [|p [|d [|f [|x rest]]]]] eqn:E; try reflexivity.
    destruct ((dot =? 46)%N && eqb_ignore_case p 112 && eqb_ignore_case d 100
              && eqb_ignore_case f 102) eqn:C; [|reflexivity].
    exfalso. apply Hno.
    exists (take (length fileName - 4) fileName), [dot; p; d; f].
    split; [rewrite <- E; symmetry; apply take_drop|].
    apply andb_true_iff in C as [C Cf]. apply andb_true_iff in C as [C Cd].
    apply andb_true_iff in C as [Cdot Cp]. apply N.eqb_eq in Cdot as ->.
    exists p, d, f. split; [reflexivity|].
    apply eqb_ignore_case_true in Cp, Cd, Cf. auto.
Qed.

Lemma replace_pdf_suffix_spec_witness :
  js "report.final.Pdf" = js "report.final" ++ js ".Pdf"
  /\ pdf_extension (js ".Pdf")
  /\ replace_pdf_suffix (js "report.final.Pdf") = js "report.final"
  /\ (~ exists base ext, js "notes.pdf.txt" = base ++ ext /\ pdf_extension ext)
  /\ replace_pdf_suffix (js "notes.pdf.txt") = js "notes.pdf.txt".
Proof.
  assert (E : pdf_extension (js ".Pdf")).
  { exists 80%N, 100%N, 102%N. repeat split; auto. }
  assert (N : ~ exists base ext,
                js "notes.pdf.txt" = base ++ ext /\ pdf_extension ext).
  { intros (base & ext & H & (p & d & f & -> & Hp & _)).
    apply (f_equal (@rev N)) in H. rewrite rev_app_distr in H.
    simpl in H. injection H as _ _ Hp' _.
    destruct Hp as [-> | ->]; discriminate Hp'. }
  split; [reflexivity|]. split; [exact E|].
  split; [exact (proj1 (replace_pdf_suffix_spec (js "report.final.Pdf"))
                   (js "report.final") (js ".Pdf") eq_refl E)|].
  split; [exact N|].
  exact (proj2 (replace_pdf_suffix_spec (js "notes.pdf.txt")) N).
Defined.

(** Case analysis along the branches of [handleSubmit]. *)
Ltac walk_handleSubmit env st :=
  unfold handleSubmit;
  let f := fresh "f" in
  let base64 := fresh "base64" in
  let response := fresh "response" in
  destruct (file st) as [f|] eqn:?;
    [destruct (truthy_string (trim (title st))) eqn:?;
       [destruct (fileToBase64 (reader env) f) as [base64|?] eqn:?;
          [destruct (server env (upload_request st base64)) as [response|?] eqn:?;
             [destruct (ok response) eqn:?;
                [destruct (json response) eqn:?|]|]|]|]|];
  simpl.

Lemma submit_enabled_iff (st : State) :
  submit_disabled st = false <->
  isUploading st = false /\ (exists f, file st = Some f) /\ trim (title st) <> [].
Proof.
  unfold submit_disabled.
  rewrite !orb_false_iff, negb_false_iff, JSFacts.truthy_string_true.
  destruct (file st) as [f|]; split.
  - intros [[H1 _] H2]. eauto.
  - intros (H1 & _ & H2). auto.
  - intros [[_ H] _]. discriminate.
  - intros (_ & [f H] & _). discriminate.
Qed.

(** X3.  The submit button and [handleSubmit]'s own check agree: when the
    button is enabled the form holds a file and a title that is not blank;
    and a form without a file, or with a blank title, has the button
    disabled, and [handleSubmit] on it sends nothing, calls nothing, keeps
    the fields and shows "Please select a PDF file and enter a title." *)
Theorem submit_button_matches_validation (env : Env) (st : State) :
  (submit_disabled st = false ->
   exists f, file st = Some f /\ trim (title st) <> [] /\ isUploading st = false)
  /\ (file st = None \/ trim (title st) = [] ->
      submit_disabled st = true
      /\ requests (handleSubmit env st) = []
      /\ onQuizGenerated (handleSubmit env st) = []
      /\ file (after (handleSubmit env st)) = file st
      /\ title (after (handleSubmit env st)) = title st
      /\ isUploading (after (handleSubmit env st)) = isUploading st
      /\ uploadStatus (after (handleSubmit env st))
         = {| status_type := Some error;
              status_message :=
                js "Please select a PDF file and enter a title." |}).
Proof.
  split.
  - intros H. apply submit_enabled_iff in H as (H1 & [f Hf] & H2). eauto.
  - intros H.
    assert (D : submit_disabled st = true).
    { destruct (submit_disabled st) eqn:E; [reflexivity|].
      apply submit_enabled_iff in E as (_ & [f Hf] & Ht).
      destruct H as [H|H]; congruence. }
    split; [exact D|].
    assert (E : handleSubmit env st = rejected_by_validation st).
    { unfold handleSubmit. destruct (file st) as [f|]; [|reflexivity].
      destruct H as [H|H]; [discriminate|]. rewrite H. reflexivity. }
    rewrite E. simpl. auto 10.
Qed.

Lemma submit_button_matches_validation_witness :
  (file initial = None \/ trim (title initial) = [])
  /\ submit_disabled initial = true
  /\ requests (handleSubmit all_well initial) = []
  /\ submit_disabled chosen = false
  /\ exists f, file chosen = Some f /\ trim (title chosen) <> []
               /\ isUploading chosen = false.
Proof.
  assert (H : file initial = None \/ trim (title initial) = [])
    by (left; reflexivity).
  destruct (proj2 (submit_button_matches_validation all_well initial) H)
    as (D & R & _).
  split; [exact H|]. split; [exact D|]. split; [exact R|].
  split; [reflexivity|].
  exact (proj1 (submit_button_matches_validation all_well chosen) eq_refl).
Defined.

(** X4.  One run of [handleSubmit] sends at most one request, the POST to
    [/api/pdf-quizzes/upload]; it calls [onQuizGenerated] at most once, and
    only after that request; and once the form has passed the check,
    [isUploading] is false again at the end, however the run ends. *)
Theorem handleSubmit_effects (env : Env) (st : State) :
  (requests (handleSubmit env st) = []
   \/ exists f base64,
        file st = Some f /\ fileToBase64 (reader env) f = Fulfilled base64
        /\ requests (handleSubmit env st) = [upload_request st base64])
  /\ (length (onQuizGenerated (handleSubmit env st)) <= 1)%nat
  /\ (onQuizGenerated (handleSubmit env st) <> [] ->
      requests (handleSubmit env st) <> [])
  /\ (forall f,
        file st = Some f -> trim (title st) <> [] ->
        isUploading (after (handleSubmit env st)) = false).
Proof.
  split; [|split; [|split]].
  - walk_handleSubmit env st; first [left; reflexivity | right; eauto].
  - walk_handleSubmit env st; lia.
  - walk_handleSubmit env st; congruence.
  - intros f0 Hf0 Ht0. apply JSFacts.truthy_string_true in Ht0.
    walk_handleSubmit env st; congruence.
Qed.

Lemma handleSubmit_effects_witness :
  onQuizGenerated (handleSubmit all_well chosen) <> []
  /\ requests (handleSubmit all_well chosen) <> []
  /\ file chosen = Some notes_pdf /\ trim (title chosen) <> []
  /\ isUploading (after (handleSubmit server_down chosen)) = false.
Proof.
  assert (C : onQuizGenerated (handleSubmit all_well chosen) <> [])
    by (vm_compute; discriminate).
  assert (T : trim (title chosen) <> []) by (vm_compute; discriminate).
  destruct (handleSubmit_effects all_well chosen) as (_ & _ & H & _).
  destruct (handleSubmit_effects server_down chosen) as (_ & _ & _ & U).
  split; [exact C|]. split; [exact (H C)|]. split; [reflexivity|].
  split; [exact T|]. exact (U notes_pdf eq_refl T).
Defined.

(** X5.  What the form shows when an upload fails, with a file chosen and a
    title that is not blank.  A non-2xx answer shows "Upload failed: " and
    the answer's status text; nothing of the answer's body is read, so the
    [error] text of the proxy's JSON is never shown.  A file that cannot
    be read shows "Upload failed. Please try again." and sends nothing.
    A [fetch] that rejects shows the rejection's message.  In each case the
    file and the title stay. *)
Theorem upload_failure_messages (env : Env) (st : State) (f : File) :
  file st = Some f -> trim (title st) <> [] ->
  (forall base64 r,
     fileToBase64 (reader env) f = Fulfilled base64 ->
     server env (upload_request st base64) = Fulfilled r -> ok r = false ->
     uploadStatus (after (handleSubmit env st))
     = {| status_type := Some error;
          status_message := js "Upload failed: " ++ statusText r |}
     /\ file (after (handleSubmit env st)) = Some f
     /\ title (after (handleSubmit env st)) = title st)
  /\ (reader env = onerror ->
      uploadStatus (after (handleSubmit env st))
      = {| status_type := Some error;
           status_message := js "Upload failed. Please try again." |}
      /\ requests (handleSubmit env st) = []
      /\ file (after (handleSubmit env st)) = Some f
      /\ title (after (handleSubmit env st)) = title st)
  /\ (forall base64 message,
        fileToBase64 (reader env) f = Fulfilled base64 ->
        server env (upload_request st base64) = Rejected (ThrownError message) ->
        uploadStatus (after (handleSubmit env st))
        = {| status_type := Some error; status_message := message |}
        /\ file (after (handleSubmit env st)) = Some f
        /\ title (after (handleSubmit env st)) = title st).
Proof.
  intros Hf Ht. apply JSFacts.truthy_string_true in Ht.
  unfold handleSubmit. rewrite Hf, Ht. repeat split.
  - rewrite H, H0, H1. reflexivity.
  - rewrite H, H0, H1. simpl. exact Hf.
  - rewrite H, H0, H1. reflexivity.
  - rewrite H. reflexivity.
  - rewrite H. reflexivity.
  - rewrite H. simpl. exact Hf.
  - rewrite H. reflexivity.
  - rewrite H, H0. reflexivity.
  - rewrite H, H0. simpl. exact Hf.
  - rewrite H, H0. reflexivity.
Qed.

Lemma upload_failure_messages_witness :
  file chosen = Some notes_pdf /\ trim (title chosen) <> []
  /\ uploadStatus (after (handleSubmit server_down chosen))
     = {| status_type := Some error;
          status_message := js "Upload failed: Internal Server Error" |}
  /\ reader unreadable_file = onerror
  /\ uploadStatus (after (handleSubmit unreadable_file chosen))
     = {| status_type := Some error;
          status_message := js "Upload failed. Please try again." |}.
Proof.
  assert (T : trim (title chosen) <> []) by (vm_compute; discriminate).
  destruct (upload_failure_messages server_down chosen notes_pdf eq_refl T)
    as (H & _ & _).
  destruct (upload_failure_messages unreadable_file chosen notes_pdf eq_refl T)
    as (_ & R & _).
  split; [reflexivity|]. split; [exact T|].
  split; [exact (proj1 (H (Some (js "Zm9vYmFy")) _ eq_refl eq_refl eq_refl))|].
  split; [reflexivity|]. exact (proj1 (R eq_refl)).
Defined.

(** X6.  Choosing a PDF stores it and sets the title, and touches nothing
    else: the status on display stays.  So after a file that is not a PDF
    was refused, choosing a PDF leaves "Please select a valid PDF file." on
    display beside the accepted file. *)
Theorem error_survives_valid_choice (st : State) (refused chosen_pdf : File) :
  type refused <> js "application/pdf" ->
  type chosen_pdf = js "application/pdf" ->
  file (handleFileChange (Some chosen_pdf)
          (handleFileChange (Some refused) st)) = Some chosen_pdf
  /\ uploadStatus (handleFileChange (Some chosen_pdf)
                     (handleFileChange (Some refused) st))
     = {| status_type := Some error;
          status_message := js "Please select a valid PDF file." |}
  /\ isUploading (handleFileChange (Some chosen_pdf)
                    (handleFileChange (Some refused) st)) = isUploading st.
Proof.
  intros Hr Hc. unfold handleFileChange, string_eqb.
  rewrite (bool_decide_eq_false_2 _ Hr), (bool_decide_eq_true_2 _ Hc).
  auto.
Qed.

Lemma error_survives_valid_choice_witness :
  type notes_txt <> js "application/pdf"
  /\ type notes_pdf = js "application/pdf"
  /\ uploadStatus (handleFileChange (Some notes_pdf)
                     (handleFileChange (Some notes_txt) initial))
     = {| status_type := Some error;
          status_message := js "Please select a valid PDF file." |}.
Proof.
  assert (H : type notes_txt <> js "application/pdf") by (vm_compute; discriminate).
  split; [exact H|]. split; [reflexivity|].
  exact (proj1 (proj2 (error_survives_valid_choice initial notes_txt notes_pdf
                         H eq_refl))).
Defined.

(** [handleSubmit] keeps the file or clears it. *)
Lemma handleSubmit_file (env : Env) (st : State) :
  file (after (handleSubmit env st)) = file st
  \/ file (after (handleSubmit env st)) = None.
Proof. walk_handleSubmit env st; auto. Qed.

(** Whatever the user does, the file the form holds is a PDF: only
    [handleFileChange] stores a file, and only one of type
    [application/pdf]. *)
Lemma reachable_file_is_pdf (st : State) :
  Reachable st -> forall f, file st = Some f -> type f = js "application/pdf".
Proof.
  induction 1 as [|ev st _ IH]; [discriminate|].
  destruct ev as [[g|]|value|env]; simpl.
  - unfold handleFileChange, string_eqb. case_bool_decide; simpl.
    + intros f [= <-]. assumption.
    + exact IH.
  - exact IH.
  - exact IH.
  - destruct (submit_disabled st); [exact IH|].
    destruct (handleSubmit_file env st) as [-> | ->]; [exact IH | discriminate].
Qed.

(** X7.  In every state the user can bring the form to, a submission that sends
    a request sends this one: the POST to the upload endpoint whose body
    has the trimmed title, which is not empty, and the Base64 text of the
    chosen PDF.  The [file_content] field is never missing. *)
Theorem reachable_submission_body (st : State) (env : Env)
    (request : Request UploadBody) :
  Reachable st ->
  request ∈ requests (dispatch (SubmitForm env) st) ->
  exists f,
    file st = Some f /\ type f = js "application/pdf"
    /\ trim (title st) <> []
    /\ request
       = {| url := js "/api/pdf-quizzes/upload";
            method := POST_;
            headers :=
              [(js "Content-Type", js "application/json");
               (js "Authorization", js "Bearer 1")];
            body := Some {| body_title := trim (title st);
                            file_content := Some (base64_encode (content f)) |} |}.
Proof.
  intros HR Hin. simpl in Hin.
  destruct (submit_disabled st) eqn:D; [inversion Hin|].
  apply submit_enabled_iff in D as (_ & [f Hf] & Ht).
  pose proof (reachable_file_is_pdf st HR f Hf) as Hpdf.
  exists f. split; [exact Hf|]. split; [exact Hpdf|]. split; [exact Ht|].
  revert Hin. unfold handleSubmit. rewrite Hf.
  rewrite (proj2 (JSFacts.truthy_string_true _) Ht).
  destruct (reader env).
  - rewrite (UploadSpec.fileToBase64_pdf f Hpdf).
    assert (E : request ∈ [upload_request st (Some (base64_encode (content f)))] ->
               request = upload_request st (Some (base64_encode (content f)))).
    { intros H. apply list_elem_of_singleton in H. exact H. }
    destruct (server env _) as [response|e]; [|exact E].
    destruct (ok response); simpl; [|exact E].
    destruct (json response); exact E.
  - simpl. intros H. inversion H.
Qed.

Lemma reachable_submission_body_witness :
  Reachable chosen
  /\ upload_request chosen (Some (js "Zm9vYmFy"))
     ∈ requests (dispatch (SubmitForm server_down) chosen)
  /\ exists f,
       file chosen = Some f /\ type f = js "application/pdf"
       /\ trim (title chosen) <> []
       /\ upload_request chosen (Some (js "Zm9vYmFy"))
          = {| url := js "/api/pdf-quizzes/upload";
               method := POST_;
               headers :=
                 [(js "Content-Type", js "application/json");
                  (js "Authorization", js "Bearer 1")];
               body := Some {| body_title := trim (title chosen);
                               file_content :=
                                 Some (base64_encode (content f)) |} |}.
Proof.
  assert (R : Reachable chosen)
    by exact (reach_step (ChooseFile (Some notes_pdf)) initial reach_initial).
  assert (I : upload_request chosen (Some (js "Zm9vYmFy"))
              ∈ requests (dispatch (SubmitForm server_down) chosen))
    by (apply list_elem_of_here).
  split; [exact R|]. split; [exact I|].
  exact (reachable_submission_body chosen server_down _ R I).
Defined.

(** X8.  [fileToBase64] on a file that is read: whenever the file's MIME type
    holds no comma (an empty type included, which the data URL writes as
    [application/octet-stream]), [result.split(",")[1]] is the whole Base64
    text of the file's bytes. *)
Theorem fileToBase64_payload (f : File) :
  Forall (fun c => c <> 44%N) (type f) ->
  fileToBase64 onload f = Fulfilled (Some (base64_encode (content f))).
Proof.
  intros Ht. unfold fileToBase64, readAsDataURL.
  set (mime := if truthy_string (type f) then type f
               else js "application/octet-stream").
  assert (Hm : Forall (fun c => c <> 44%N) mime).
  { unfold mime. destruct (truthy_string (type f)); [exact Ht|].
    repeat (constructor; [discriminate|]). constructor. }
  replace (js "data:" ++ mime ++ js ";base64," ++ base64_encode (content f))
    with ((js "data:" ++ mime ++ js ";base64")
          ++ 44%N :: base64_encode (content f)).
  2:{ rewrite <- !app_assoc. reflexivity. }
  rewrite JSFacts.split_app.
  - rewrite JSFacts.split_no_sep by apply UploadSpec.base64_encode_no_comma.
    reflexivity.
  - apply Forall_app. split; [repeat (constructor; [discriminate|]); constructor|].
    apply Forall_app. split; [exact Hm|].
    repeat (constructor; [discriminate|]). constructor.
Qed.

Lemma fileToBase64_payload_witness :
  Forall (fun c => c <> 44%N) (type notes_txt)
  /\ fileToBase64 onload notes_txt = Fulfilled (Some (js "Zm9vYmFy")).
Proof.
  assert (H : Forall (fun c => c <> 44%N) (type notes_txt))
    by (repeat (constructor; [discriminate|]); constructor).
  split; [exact H | exact (fileToBase64_payload notes_txt H)].
Defined.

End UploadBehaviour.

(** ** The quiz view: loading, answering, submitting, reviewing *)

Module QuizViewBehaviour.
Import PDFQuizView QuizScenarios QuizAnswers.

(** X9.  A question is unanswered for the submit button exactly when the state
    holds no answer for it, or one made of white-space code units only
    (spaces, tabs, line ends, no-break and other Unicode spaces; the empty
    answer included). *)
Theorem unanswered_iff_absent_or_whitespace
    (a : gmap Z jsstring) (question : QuizQuestion) :
  unanswered a question = true <->
  a !! id question = None
  \/ exists s, a !! id question = Some s
               /\ Forall (fun c => isWhiteSpace c = true) s.
Proof.
  rewrite QuizViewSpec.unanswered_true. unfold blank.
  split; (intros [H|(s & Hs & H)]; [left; exact H | right; exists s]);
    (split; [exact Hs|]); apply JSFacts.trim_nil_iff; exact H.
Qed.

(** X10.  A fetch of the quiz that fails ends the spinner and shows the error
    panel, whatever the state was: with "Failed to fetch quiz: " and the
    status text for a non-2xx answer (nothing of its body is read), with
    "Failed to load quiz" when what was thrown is no [Error], and with the
    error's message when it is an [Error] with one.  The quiz and the
    answers held are not touched. *)
Theorem fetch_failure_shows_error_panel (st : State) :
  (forall r,
     ok r = false ->
     render (fetchQuiz_settle (Fulfilled r) st)
     = ErrorPanel (js "Failed to fetch quiz: " ++ statusText r))
  /\ render (fetchQuiz_settle (Rejected ThrownOther) st)
     = ErrorPanel (js "Failed to load quiz")
  /\ (forall message,
        message <> [] ->
        render (fetchQuiz_settle (Rejected (ThrownError message)) st)
        = ErrorPanel message)
  /\ (forall outcome,
        (forall r, outcome = Fulfilled r -> ok r = false) ->
        quiz (fetchQuiz_settle outcome st) = quiz st
        /\ answers (fetchQuiz_settle outcome st) = answers st).
Proof.
  repeat split.
  - intros r Hok. unfold fetchQuiz_settle. rewrite Hok. reflexivity.
  - intros message Hm. destruct message; [congruence | reflexivity].
  - destruct outcome as [r|e]; [|reflexivity].
    unfold fetchQuiz_settle. rewrite (H r eq_refl). reflexivity.
  - destruct outcome as [r|e]; [|reflexivity].
    unfold fetchQuiz_settle. rewrite (H r eq_refl). reflexivity.
Qed.

Lemma fetch_failure_shows_error_panel_witness :
  ok quiz_not_found = false
  /\ render (fetchQuiz_settle (Fulfilled quiz_not_found) initial)
     = ErrorPanel (js "Failed to fetch quiz: Not Found").
Proof.
  split; [reflexivity|].
  exact (proj1 (fetch_failure_shows_error_panel initial) quiz_not_found eq_refl).
Defined.

Lemma unanswered_empty (question : QuizQuestion) : unanswered ∅ question = true.
Proof. unfold unanswered. rewrite lookup_empty. reflexivity. Qed.

Lemma existsb_unanswered_empty (qs : list QuizQuestion) :
  existsb (unanswered ∅) qs = match qs with [] => false | _ => true end.
Proof. destruct qs; simpl; [reflexivity|]. rewrite unanswered_empty. reflexivity. Qed.



(** X12.  A submission the backend answers with a non-2xx status takes the quiz
    off the screen: the view becomes the error panel with "Submission
    failed: " and the status text, whose only action is "Go Back".  The
    answers stay in the state, [isSubmitting] is false again, and no
    results are stored. *)
Theorem failed_submission_shows_error_panel
    (st : State) (r : Response QuizSubmissionResponse) :
  loading st = false -> ok r = false ->
  render (handleSubmit_settle (Fulfilled r) st)
  = ErrorPanel (js "Submission failed: " ++ statusText r)
  /\ answers (handleSubmit_settle (Fulfilled r) st) = answers st
  /\ results (handleSubmit_settle (Fulfilled r) st) = results st
  /\ isSubmitting (handleSubmit_settle (Fulfilled r) st) = false.
Proof.
  intros Hl Hok. unfold handleSubmit_settle. rewrite Hok. simpl.
  unfold render. simpl. rewrite Hl. auto.
Qed.

Lemma failed_submission_shows_error_panel_witness :
  loading in_flight = false /\ ok grading_down = false
  /\ render (handleSubmit_settle (Fulfilled grading_down) in_flight)
     = ErrorPanel (js "Submission failed: Service Unavailable").
Proof.
  split; [reflexivity|]. split; [reflexivity|].
  exact (proj1 (failed_submission_shows_error_panel in_flight grading_down
                  eq_refl eq_refl)).
Defined.

(** X13.  Once results are stored there is no submit button: a click submits
    nothing, whatever else the state holds.  And a submission that
    succeeds from the Answering sub-state leads there: the page shows the
    results summary and no button. *)
Theorem graded_quiz_is_terminal (quizId : Z) (st : State) :
  (results st <> None -> click_submit quizId st = (st, []))
  /\ (forall q r result,
        Answering st q -> ok r = true -> json r = Fulfilled result ->
        render (handleSubmit_settle (Fulfilled r) st) = Page q (Some result) None
        /\ isSubmitting (handleSubmit_settle (Fulfilled r) st) = false).
Proof.
  split.
  - intros H. unfold click_submit, render.
    destruct (loading st); [reflexivity|].
    destruct (truthy_opt_string (error st)); [reflexivity|].
    destruct (quiz st); [|reflexivity].
    destruct (results st); [reflexivity | congruence].
  - intros q r result A Hok Hj. unfold Answering, render in A.
    unfold handleSubmit_settle. rewrite Hok, Hj. unfold render. simpl.
    destruct (loading st); [discriminate|].
    destruct (truthy_opt_string (error st)); [discriminate|].
    destruct (quiz st) as [q'|]; [|discriminate].
    destruct (results st); [discriminate|].
    injection A as ->. auto.
Qed.

Lemma graded_quiz_is_terminal_witness :
  results graded <> None /\ click_submit 5 graded = (graded, [])
  /\ Answering ready sample_quiz
  /\ ok grading_found = true /\ json grading_found = Fulfilled grading
  /\ render (handleSubmit_settle (Fulfilled grading_found) ready)
     = Page sample_quiz (Some grading) None.
Proof.
  assert (H : results graded <> None) by discriminate.
  split; [exact H|].
  split; [exact (proj1 (graded_quiz_is_terminal 5 graded) H)|].
  repeat (split; [reflexivity|]).
  exact (proj1 (proj2 (graded_quiz_is_terminal 5 ready) sample_quiz
                  grading_found grading eq_refl eq_refl eq_refl)).
Defined.

(** X14.  No double submission: while [isSubmitting] is set a click submits
    nothing; so the click after one that issued a request issues none and
    changes nothing. *)
Theorem no_double_submission (quizId : Z) (st : State) :
  (isSubmitting st = true -> click_submit quizId st = (st, []))
  /\ ((click_submit quizId st).2 <> [] ->
      click_submit quizId (click_submit quizId st).1
      = ((click_submit quizId st).1, [])).
Proof.
  assert (G : forall s, isSubmitting s = true -> click_submit quizId s = (s, [])).
  { intros s H. unfold click_submit, render.
    destruct (loading s); [reflexivity|].
    destruct (truthy_opt_string (error s)); [reflexivity|].
    destruct (quiz s); [|reflexivity].
    destruct (results s); [reflexivity|].
    simpl. unfold submit_disabled. rewrite H. reflexivity. }
  split; [apply G|]. intros H. apply G.
  unfold click_submit in *.
  destruct (render st) as [| | |q r [button|]]; simpl in *; try congruence.
  destruct (disabled button); simpl in *; [congruence|].
  unfold handleSubmit_start in *. destruct (quiz st); simpl in *; congruence.
Qed.

Lemma no_double_submission_witness :
  (click_submit 5 ready).2 <> []
  /\ click_submit 5 (click_submit 5 ready).1 = ((click_submit 5 ready).1, []).
Proof.
  assert (H : (click_submit 5 ready).2 <> []) by (vm_compute; discriminate).
  split; [exact H | exact (proj2 (no_double_submission 5 ready) H)].
Defined.

(** X15.  How an answer moves the submit button.  In the Answering sub-state,
    with no submission in flight, after [handleAnswerChange] for one
    question the button is enabled exactly when the new answer is not
    blank for every question with that id and every other question was
    answered already. *)
Theorem answer_change_enables_submit
    (st : State) (q : Quiz) (questionId : Z) (a : jsstring) :
  Answering st q -> isSubmitting st = false ->
  Answering (handleAnswerChange questionId a st) q
  /\ (submit_disabled (handleAnswerChange questionId a st) = false <->
      forall question,
        question ∈ questions q ->
        (id question = questionId -> trim a <> [])
        /\ (id question <> questionId -> answered (answers st) question)).
Proof.
  intros A Hs.
  pose proof (QuizViewSpec.render_submit _ _ _ _ A) as (Hq & Hr & _).
  assert (A' : Answering (handleAnswerChange questionId a st) q).
  { unfold Answering, render in *. simpl.
    destruct (loading st); [discriminate|].
    destruct (truthy_opt_string (error st)); [discriminate|].
    rewrite Hq, Hr. reflexivity. }
  split; [exact A'|].
  unfold submit_disabled. simpl. rewrite Hs, Hq. simpl.
  rewrite QuizViewSpec.none_unanswered.
  split; intros H question Hin; specialize (H question Hin).
  - destruct H as (s & Hl & Hne). split.
    + intros <-. rewrite lookup_insert_eq in Hl. congruence.
    + intros Hneq. rewrite lookup_insert_ne in Hl by congruence.
      exists s. auto.
  - destruct H as [H1 H2]. unfold answered.
    destruct (decide (id question = questionId)) as [<-|Hneq].
    + exists a. rewrite lookup_insert_eq. auto.
    + destruct (H2 Hneq) as (s & Hl & Hne). exists s.
      rewrite lookup_insert_ne by congruence. auto.
Qed.

Lemma answer_change_enables_submit_witness :
  Answering (handleAnswerChange 2 (js "b") (handleAnswerChange 1 (js "a") loaded))
    sample_quiz
  /\ isSubmitting
       (handleAnswerChange 2 (js "b") (handleAnswerChange 1 (js "a") loaded))
     = false
  /\ (submit_disabled ready = false <->
      forall question,
        question ∈ questions sample_quiz ->
        (id question = 3 -> trim (js "c") <> [])
        /\ (id question <> 3 ->
            answered
              (answers (handleAnswerChange 2 (js "b")
                          (handleAnswerChange 1 (js "a") loaded)))
              question)).
Proof.
  split; [reflexivity|]. split; [reflexivity|].
  exact (proj2 (answer_change_enables_submit
                  (handleAnswerChange 2 (js "b")
                     (handleAnswerChange 1 (js "a") loaded))
                  sample_quiz 3 (js "c") eq_refl eq_refl)).
Defined.

Lemma Object_entries_elem (m : gmap Z jsstring) (k : Z) (v : jsstring) :
  (k, v) ∈ Object_entries m <-> m !! k = Some v.
Proof.
  unfold Object_entries.
  rewrite (@merge_sort_Permutation _ key_le key_le_dec (map_to_list m)).
  apply elem_of_map_to_list.
Qed.

Lemma Object_entries_NoDup (m : gmap Z jsstring) :
  NoDup (List.map fst (Object_entries m)).
Proof.
  unfold Object_entries.
  pose proof (@merge_sort_Permutation _ key_le key_le_dec (map_to_list m)) as P.
  apply (Permutation_map fst) in P. rewrite P.
  exact (NoDup_fst_map_to_list m).
Qed.



End QuizViewBehaviour.

(** ** The question cards *)

Module QuizCardsBehaviour.
Import PDFQuizView QuizScenarios QuizAnswers QuizCards.

Lemma find_first_match {A} (p : A -> bool) (l : list A) :
  match List.find p l with
  | Some x =>
      exists before rest,
        l = before ++ x :: rest /\ p x = true
        /\ forall y, y ∈ before -> p y = false
  | None => forall y, y ∈ l -> p y = false
  end.
Proof.
  induction l as [|a l IH]; simpl.
  - intros y H. inversion H.
  - destruct (p a) eqn:Ha.
    + exists [], l. split; [reflexivity|]. split; [exact Ha|].
      intros y H. inversion H.
    + destruct (List.find p l) as [x|].
      * destruct IH as (before & rest & -> & Hx & Hb).
        exists (a :: before), rest. split; [reflexivity|]. split; [exact Hx|].
        intros y H. apply elem_of_cons in H as [-> | H]; auto.
      * intros y H. apply elem_of_cons in H as [-> | H]; auto.
Qed.

(** X17.  [getQuestionResult] gives the first result the backend listed for the
    question, and nothing when there are no results yet or none is listed
    for it: a second result for the same question is never used. *)
Theorem getQuestionResult_first_match (questionId : Z) (st : State) :
  match getQuestionResult questionId st with
  | Some x =>
      exists r before rest,
        results st = Some r
        /\ question_results r = before ++ x :: rest
        /\ question_id x = questionId
        /\ forall y, y ∈ before -> question_id y <> questionId
  | None =>
      results st = None
      \/ exists r,
           results st = Some r
           /\ forall y, y ∈ question_results r -> question_id y <> questionId
  end.
Proof.
  unfold getQuestionResult. destruct (results st) as [r|]; simpl; [|left; reflexivity].
  pose proof (find_first_match (fun x => question_id x =? questionId)
                (question_results r)) as H.
  destruct (List.find _ (question_results r)) as [x|].
  - destruct H as (before & rest & Hl & Hx & Hb).
    exists r, before, rest. split; [reflexivity|]. split; [exact Hl|].
    split; [apply Z.eqb_eq, Hx|].
    intros y Hy. apply Z.eqb_neq, Hb, Hy.
  - right. exists r. split; [reflexivity|].
    intros y Hy. apply Z.eqb_neq, H, Hy.
Qed.

Lemma getQuestionResult_none (questionId : Z) (st : State) r :
  results st = Some r ->
  (forall y, y ∈ question_results r -> question_id y <> questionId) ->
  getQuestionResult questionId st = None.
Proof.
  intros Hr Hn.
  pose proof (find_first_match (fun x => question_id x =? questionId)
                (question_results r)) as H.
  unfold getQuestionResult. rewrite Hr. simpl.
  destruct (List.find _ (question_results r)) as [x|]; [|reflexivity].
  destruct H as (before & rest & Hl & Hx & _). exfalso.
  apply Z.eqb_eq in Hx. apply (Hn x); [|exact Hx].
  rewrite Hl. apply elem_of_app. right. apply list_elem_of_here.
Qed.

(** X18.  The verdict a card shows once there are results.  The card is green
    exactly when the first result for its question is marked correct.  A
    question the backend lists no result for is shown as wrong: red, with
    the cross, "0/0" points, and as "Your Answer" the answer held by the
    state, or "No answer provided".  The inputs are disabled. *)
Theorem card_verdict (st : State) (index : nat) (question : QuizQuestion)
    (r : QuizSubmissionResponse) :
  results st = Some r ->
  (border (card st index question) = border_green <->
   exists x, getQuestionResult (id question) st = Some x /\ is_correct x = true)
  /\ ((forall y, y ∈ question_results r -> question_id y <> id question) ->
      border (card st index question) = border_red
      /\ icon (card st index question) = Some XCircle
      /\ results_block (card st index question)
         = Some {| your_answer :=
                     or_string (answers st !! id question)
                       (js "No answer provided");
                   shown_correct_answer := correct_answer question;
                   points_text := js "0/0" |})
  /\ input_disabled (card st index question) = true.
Proof.
  intros Hr. unfold card. simpl. rewrite Hr. repeat split.
  - destruct (getQuestionResult (id question) st) as [x|]; [|discriminate].
    destruct (is_correct x) eqn:C; [|discriminate]. eauto.
  - intros (x & -> & ->). reflexivity.
  - rewrite (getQuestionResult_none _ _ _ Hr H). reflexivity.
  - rewrite (getQuestionResult_none _ _ _ Hr H). reflexivity.
  - rewrite (getQuestionResult_none _ _ _ Hr H). reflexivity.
Qed.

Lemma card_verdict_witness :
  results graded = Some grading
  /\ (forall y, y ∈ question_results grading -> question_id y <> 3)
  /\ border (card graded 2 (sample_question 3)) = border_red
  /\ results_block (card graded 2 (sample_question 3))
     = Some {| your_answer := js "c";
               shown_correct_answer := js "a unit of life";
               points_text := js "0/0" |}
  /\ border (card graded 0 (sample_question 1)) = border_green.
Proof.
  assert (N : forall y, y ∈ question_results grading -> question_id y <> 3).
  { intros y H. simpl in H.
    apply elem_of_cons in H as [-> | H]; [discriminate|].
    apply list_elem_of_singleton in H as ->. discriminate. }
  destruct (card_verdict graded 2 (sample_question 3) grading eq_refl)
    as (_ & H & _).
  destruct (H N) as (B & _ & Rb).
  destruct (card_verdict graded 0 (sample_question 1) grading eq_refl)
    as (G & _).
  split; [reflexivity|]. split; [exact N|]. split; [exact B|].
  split; [exact Rb|].
  apply G. eexists. split; reflexivity.
Defined.

(** X19.  The "Your Answer" line of a card.  It is empty exactly when the
    first result for the question has [user_answer: null], which passes the
    source's [!== undefined] and [!== ""] tests and renders as nothing.  In
    every other case it has text: the backend's echo when that is a string
    that is not empty, else the answer held by the state when that is not
    empty, else "No answer provided". *)
Theorem your_answer_empty_only_for_null
    (st : State) (index : nat) (question : QuizQuestion) (block : ResultsBlock) :
  results_block (card st index question) = Some block ->
  (your_answer block = [] <->
   exists x, getQuestionResult (id question) st = Some x
             /\ user_answer x = NullValue)
  /\ (forall x s,
        getQuestionResult (id question) st = Some x ->
        user_answer x = StringValue s -> s <> [] ->
        your_answer block = s)
  /\ ((getQuestionResult (id question) st = None
       \/ exists x, getQuestionResult (id question) st = Some x
                    /\ (user_answer x = MissingValue
                        \/ user_answer x = StringValue [])) ->
      your_answer block
      = or_string (answers st !! id question) (js "No answer provided")).
Proof.
  unfold card. simpl. destruct (results st); [|discriminate].
  intros [= <-]. simpl. unfold your_answer_text.
  assert (F : or_string (answers st !! id question) (js "No answer provided")
              <> []).
  { unfold or_string.
    destruct (answers st !! id question) as [[|c s]|]; discriminate. }
  split; [|split].
  - destruct (getQuestionResult (id question) st) as [x|].
    + destruct (user_answer x) as [[|c s]| |] eqn:U; simpl; split;
        try (intros H; exfalso; exact (F H));
        try discriminate; eauto;
        intros (y & [= <-] & Hy); congruence.
    + split; [intros H; exfalso; exact (F H)|].
      intros (y & Hy & _). discriminate.
  - intros x s -> -> Hs. destruct s; [congruence | reflexivity].
  - intros [-> | (x & -> & [-> | ->])]; reflexivity.
Qed.

Lemma your_answer_empty_only_for_null_witness :
  results_block (card graded_null 1 (sample_question 2))
  = Some {| your_answer := js "";
            shown_correct_answer := js "a unit of life";
            points_text := js "0/1" |}
  /\ (js "" = [] <->
      exists x, getQuestionResult (id (sample_question 2)) graded_null = Some x
                /\ user_answer x = NullValue)
  /\ results_block (card graded 1 (sample_question 2))
     = Some {| your_answer := js "b";
               shown_correct_answer := js "a unit of life";
               points_text := js "0/1" |}.
Proof.
  split; [reflexivity|].
  split; [|reflexivity].
  exact (proj1 (your_answer_empty_only_for_null graded_null 1 (sample_question 2)
                  {| your_answer := js "";
                     shown_correct_answer := js "a unit of life";
                     points_text := js "0/1" |} eq_refl)).
Defined.

End QuizCardsBehaviour.

(** ** The page and the upload form together *)

Module PageBehaviour.
Import PDFQuizPage UploadScenarios.

(** X20.  The page follows the upload form: after an upload that succeeds it
    shows the quiz view for the id the backend gave; after one that does
    not, it shows what it showed; and going back from there shows the
    upload form again. *)
Theorem page_follows_upload
    (env : PDFUpload.Env) (st : PDFUpload.State) (page : State) :
  (forall result,
     PDFUpload.upload_succeeds env st result ->
     render (after_upload (PDFUpload.handleSubmit env st) page)
     = ShowQuizView (PDFUpload.result_id result))
  /\ ((~ exists result, PDFUpload.upload_succeeds env st result) ->
      after_upload (PDFUpload.handleSubmit env st) page = page)
  /\ render (handleBackToUpload
               (after_upload (PDFUpload.handleSubmit env st) page))
     = ShowUpload.
Proof.
  split; [|split].
  - intros result H. apply PageSpec.upload_success_shows_quiz, H.
  - apply PageSpec.upload_failure_keeps_page.
  - reflexivity.
Qed.

Lemma page_follows_upload_witness :
  PDFUpload.upload_succeeds all_well chosen created
  /\ render (after_upload (PDFUpload.handleSubmit all_well chosen) initial)
     = ShowQuizView 5.
Proof.
  assert (S : PDFUpload.upload_succeeds all_well chosen created).
  { exists notes_pdf, (Some (js "Zm9vYmFy")),
      {| status := 200; statusText := js "OK";
         text := Fulfilled (js ""); json := Fulfilled created |}.
    repeat split. vm_compute. discriminate. }
  split; [exact S|].
  exact (proj1 (page_follows_upload all_well chosen initial) created S).
Defined.

End PageBehaviour.
